(** * RBDDriver2: connection descriptor, attach and detach

    A shallow embedding of [cinder/volume/drivers/rbd2.py]: the three
    methods [initialize_connection], [_connect_device] and
    [_detach_volume] of class [RBDDriver2], together with the fragment of
    Python they rely on (dictionaries, subscripting, truthiness,
    exceptions), and the properties of the connection descriptor and of
    the attach / detach paths. *)

From stdpp Require Import base strings list gmap.
From Stdlib Require Import ZArith.

Open Scope string_scope.
Set Warnings "-register-all".

(** ** Python values *)

(** The values that flow through the driver: [None], booleans, strings,
    lists, dictionaries (insertion ordered, keyed by strings) and opaque
    object references such as the connector returned by os-brick. *)
Inductive pyval : Type :=
| PNone
| PBool (b : bool)
| PStr (s : string)
| PList (l : list pyval)
| PDict (d : list (string * pyval))
| PObj (ref : nat).

(** Key lookup in a dictionary body. *)
Fixpoint dict_get {A : Type} (k : string) (d : list (string * A)) : option A :=
  match d with
  | [] => None
  | (k', v) :: d' => if String.eqb k k' then Some v else dict_get k d'
  end.

(** [k in d] *)
Definition dict_has {A : Type} (k : string) (d : list (string * A)) : bool :=
  match dict_get k d with Some _ => true | None => false end.

(** Python truth value testing, as used by [if x], [not x] and
    [True if x else False]. *)
Definition py_truthy (v : pyval) : bool :=
  match v with
  | PNone => false
  | PBool b => b
  | PStr s => negb (String.eqb s "")
  | PList l => match l with [] => false | _ => true end
  | PDict d => match d with [] => false | _ => true end
  | PObj _ => true
  end.

(** [x is not None] *)
Definition is_not_none (v : pyval) : bool :=
  match v with PNone => false | _ => true end.

(** An optional string attribute ([None] or a [str]). *)
Definition of_opt_str (o : option string) : pyval :=
  match o with Some s => PStr s | None => PNone end.

(** ** Exceptions and the effect monad *)

Inductive exn : Type :=
| KeyError (key : string)
| TypeError
| DeviceUnavailable (path : pyval) (attach_info : pyval) (reason : string)
| ProcessExecutionError (cmd : list string)
| Foreign (e : string).
(** [Foreign e] is an [Exception] raised inside a collaborator (the
    connector, the base driver); [e] identifies it. *)

Inductive result (A : Type) : Type :=
| Return (a : A)
| Raise (e : exn).
Arguments Return {A} a.
Arguments Raise {A} e.

(** What a collaborator call does: it answers or it raises. *)
Inductive outcome (A : Type) : Type :=
| Ok (a : A)
| Fails (e : string).
Arguments Ok {A} a.
Arguments Fails {A} e.

Record volume : Type := {
  name : string;
  id : string;
  encryption_key_id : option string
}.

(** Everything observable that a method does besides returning: log
    records, calls into collaborators, and commands run on the host. *)
Inductive event : Type :=
| LogDebug (msg : string) (arg : pyval)
| LogException (msg : string) (arg : pyval) (e : exn)
| CallGetMonAddrs
| CallGetConnector (protocol : pyval) (use_multipath : bool)
    (device_scan_attempts : Z) (conn : pyval)
| CallConnectVolume (connector data : pyval)
| CallSecureFileOperationsEnabled
| CallCheckValidDevice (connector path : pyval) (root_access : bool)
| CallBaseDetachVolume (context attach_info : pyval) (vol : volume)
    (properties : pyval) (force remote : bool)
| Exec (cmd : list string).

(** The host: the symbolic links under the driver's control (link path
    to target), the paths the privileged helper is not allowed to change,
    and the history of events. *)
Record host : Type := {
  links : gmap string string;
  protected : gset string;
  trace : list event
}.

Definition M (A : Type) : Type := host -> result A * host.

Definition ret {A : Type} (a : A) : M A := fun h => (Return a, h).

Definition raise {A : Type} (e : exn) : M A := fun h => (Raise e, h).

Definition bind {A B : Type} (m : M A) (k : A -> M B) : M B :=
  fun h =>
    match m h with
    | (Return a, h') => k a h'
    | (Raise e, h') => (Raise e, h')
    end.

Notation "'let!' x ':=' m 'in' k" := (bind m (fun x => k))
  (at level 10, x name, m at level 100, k at level 200).
Notation "m ';;;' k" := (bind m (fun _ => k))
  (at level 100, k at level 200, right associativity).

(** The host after the events [evs] have been added to its history. *)
Definition logged (h : host) (evs : list event) : host :=
  {| links := links h; protected := protected h; trace := trace h ++ evs |}.

Definition emit (ev : event) : M unit :=
  fun h => (Return tt, logged h [ev]).

(** A call into a collaborator: the call is recorded, then its answer is
    returned or its exception raised. *)
Definition call {A : Type} (ev : event) (o : outcome A) : M A :=
  emit ev ;;;
  match o with
  | Ok a => ret a
  | Fails e => raise (Foreign e)
  end.

(** [try: body except Exception: handler], for a body whose value is
    used afterwards; [dflt] is the value the variable holds when the body
    did not complete. *)
Definition try_except {A : Type} (body : M A) (handler : exn -> M unit)
    (dflt : A) : M A :=
  fun h =>
    match body h with
    | (Return a, h') => (Return a, h')
    | (Raise e, h') =>
        match handler e h' with
        | (Return _, h'') => (Return dflt, h'')
        | (Raise e', h'') => (Raise e', h'')
        end
    end.

(** [v[k]] for a string key. *)
Definition getitem (v : pyval) (k : string) : M pyval :=
  match v with
  | PDict d =>
      match dict_get k d with
      | Some x => ret x
      | None => raise (KeyError k)
      end
  | _ => raise TypeError
  end.

(** ** The driver and its collaborators *)

(** The options of [self.configuration] that the three methods read.
    [rbd_pool] and [rbd_cluster_name] have string defaults; [rbd_user]
    and [rbd_secret_uuid] have none and are [None] unless set. *)
Record configuration : Type := {
  rbd_pool : string;
  rbd_cluster_name : string;
  rbd_user : option string;
  rbd_secret_uuid : option string;
  use_multipath_for_image_xfer : bool;
  num_volume_device_scan_tries : Z
}.

(** Code that the methods call and that lives outside this class: the
    inherited [_get_mon_addrs], [secure_file_operations_enabled] and
    [_detach_volume] of the base driver, os-brick's connector factory and
    connector methods, and [repr] of compound values.  Each is taken as
    given; nothing is assumed about what it answers. *)
Record collaborators : Type := {
  get_mon_addrs : outcome (list string * list string);
  brick_get_connector : pyval -> bool -> Z -> pyval -> outcome pyval;
  connect_volume : pyval -> pyval -> outcome pyval;
  secure_file_operations_enabled : outcome pyval;
  check_valid_device : pyval -> pyval -> bool -> outcome pyval;
  base_detach_volume :
    pyval -> pyval -> volume -> pyval -> bool -> bool -> outcome unit;
  py_repr : pyval -> string
}.

Record driver : Type := {
  conf : configuration;
  ext : collaborators
}.

(** [str(v)], which is what ['%s' % v] inserts and what the command
    runner applies to every argument. *)
Definition py_str (self : driver) (v : pyval) : string :=
  match v with
  | PStr s => s
  | PNone => "None"
  | PBool true => "True"
  | PBool false => "False"
  | _ => py_repr (ext self) v
  end.

(** Modelled from the spec: [utils.execute(..., run_as_root=True)] and
    the two host programs it is used with, neither of which is part of
    this file.  [ln --symbolic --force TARGET LINK] force-creates
    (replaces if it exists) a symbolic link at LINK pointing at TARGET;
    [rm --force PATH] removes PATH and a missing PATH is not an error; any
    other failure, such as a refused permission, makes the runner raise. *)
Definition execute (cmd : list string) : M unit :=
  emit (Exec cmd) ;;;
  fun h =>
    match cmd with
    | [prog; o1; o2; target; link] =>
        if decide (prog = "ln" /\ o1 = "--symbolic" /\ o2 = "--force") then
          if decide (link ∈ protected h) then
            (Raise (ProcessExecutionError cmd), h)
          else
            (Return tt,
             {| links := <[link := target]> (links h);
                protected := protected h; trace := trace h |})
        else (Return tt, h)
    | [prog; o1; path] =>
        if decide (prog = "rm" /\ o1 = "--force") then
          match links h !! path with
          | None => (Return tt, h)
          | Some _ =>
              if decide (path ∈ protected h) then
                (Raise (ProcessExecutionError cmd), h)
              else
                (Return tt,
                 {| links := delete path (links h);
                    protected := protected h; trace := trace h |})
          end
        else (Return tt, h)
    | _ => (Return tt, h)
    end.

(** ** The methods of [RBDDriver2] *)

Definition initialize_connection (self : driver) (vol : volume)
    (connector : pyval) : M pyval :=
  let! addrs := call CallGetMonAddrs (get_mon_addrs (ext self)) in
  let hosts := addrs.1 in
  let ports := addrs.2 in
  let data :=
    PDict [
      ("driver_volume_type", PStr "rbd");
      ("data", PDict [
         ("name", PStr (rbd_pool (conf self) +:+ "/" +:+ name vol));
         ("hosts", PList (PStr <$> hosts));
         ("ports", PList (PStr <$> ports));
         ("cluster_name", PStr (rbd_cluster_name (conf self)));
         ("auth_enabled",
            PBool (is_not_none (of_opt_str (rbd_user (conf self)))));
         ("auth_username", of_opt_str (rbd_user (conf self)));
         ("secret_type", PStr "ceph");
         ("secret_uuid", of_opt_str (rbd_secret_uuid (conf self)));
         ("volume_id", PStr (id vol));
         ("encrypted",
            if py_truthy (of_opt_str (encryption_key_id vol))
            then PBool true else PBool false);
         ("do_local_attach",
            if py_truthy (of_opt_str (encryption_key_id vol))
            then PBool true else PBool false)
      ])
    ] in
  emit (LogDebug "connection data: %s" data) ;;;
  ret data.

(** The [try] block of [_connect_device]: [unavailable] starts [True] and
    is overwritten only if both calls complete. *)
Definition check_unavailable (self : driver) (connector host_device : pyval)
    : M bool :=
  try_except
    (let! secure :=
       call CallSecureFileOperationsEnabled
         (secure_file_operations_enabled (ext self)) in
     let root_access := negb (py_truthy secure) in
     let! valid :=
       call (CallCheckValidDevice connector host_device root_access)
         (check_valid_device (ext self) connector host_device root_access) in
     ret (negb (py_truthy valid)))
    (fun e => emit (LogException "Could not validate device %s" host_device e))
    true.

Definition _connect_device (self : driver) (conn : pyval) : M pyval :=
  let use_multipath := use_multipath_for_image_xfer (conf self) in
  let device_scan_attempts := num_volume_device_scan_tries (conf self) in
  let! protocol := getitem conn "driver_volume_type" in
  let! connector :=
    call (CallGetConnector protocol use_multipath device_scan_attempts conn)
      (brick_get_connector (ext self) protocol use_multipath
         device_scan_attempts conn) in
  let! data := getitem conn "data" in
  let! device := call (CallConnectVolume connector data)
                   (connect_volume (ext self) connector data) in
  let! path := getitem device "path" in
  let attach_info :=
    PDict [("conn", conn); ("device", path); ("connector", connector)] in
  let! data1 := getitem conn "data" in
  let! enc1 := getitem data1 "encrypted" in
  let! attach_info :=
    if py_truthy enc1 then
      let! data' := getitem conn "data" in
      let! volume_id := getitem data' "volume_id" in
      let symlink_dev := "/dev/rbd-volume-" +:+ py_str self volume_id in
      let! path' := getitem device "path" in
      execute ["ln"; "--symbolic"; "--force"; py_str self path';
               symlink_dev] ;;;
      ret (PDict [("conn", conn);
                  ("device", PDict [("path", PStr symlink_dev)]);
                  ("connector", connector)])
    else ret attach_info in
  let! data2 := getitem conn "data" in
  let! enc2 := getitem data2 "encrypted" in
  if negb (py_truthy enc2) then
    let! host_device := getitem device "path" in
    let! unavailable := check_unavailable self connector host_device in
    let! guard :=
      if unavailable then
        let! top := getitem conn "encrypted" in ret (py_truthy top)
      else ret false in
    if guard then
      raise (DeviceUnavailable host_device attach_info
               ("Unable to access the backend storage via the path "
                +:+ py_str self host_device +:+ "."))
    else ret attach_info
  else ret attach_info.

Definition _detach_volume (self : driver) (context attach_info : pyval)
    (vol : volume) (properties : pyval) (force remote : bool) : M unit :=
  call (CallBaseDetachVolume context attach_info vol properties force remote)
    (base_detach_volume (ext self) context attach_info vol properties
       force remote) ;;;
  let! conn := getitem attach_info "conn" in
  let! data := getitem conn "data" in
  let! enc := getitem data "encrypted" in
  if py_truthy enc then
    let! device := getitem attach_info "device" in
    let! path := getitem device "path" in
    execute ["rm"; "--force"; py_str self path]
  else ret tt.

(** ** Reading a descriptor and a history *)

(** Kinds of events, to count or exclude them in a history. *)
Definition is_exec (ev : event) : bool :=
  match ev with Exec _ => true | _ => false end.

Definition is_check_valid_device (ev : event) : bool :=
  match ev with CallCheckValidDevice _ _ _ => true | _ => false end.

Definition is_connect_volume (ev : event) : bool :=
  match ev with CallConnectVolume _ _ => true | _ => false end.

(** The calls [_connect_device] makes up to and including the
    connector's [connect_volume]. *)
Definition attach_calls (self : driver) (conn protocol connector data : pyval)
    : list event :=
  [CallGetConnector protocol (use_multipath_for_image_xfer (conf self))
     (num_volume_device_scan_tries (conf self)) conn;
   CallConnectVolume connector data].

(** The attach record of [_connect_device]'s first assignment (the raw
    path under [device]) and of its second one (a dictionary holding the
    link path under [device]). *)
Definition plain_record (conn path connector : pyval) : pyval :=
  PDict [("conn", conn); ("device", path); ("connector", connector)].

Definition linked_record (conn : pyval) (symlink_dev : string)
    (connector : pyval) : pyval :=
  PDict [("conn", conn);
         ("device", PDict [("path", PStr symlink_dev)]);
         ("connector", connector)].

(** [descr['data'][k]] as a lookup: [None] when the descriptor has no
    such entry. *)
Definition payload_field (descr : pyval) (k : string) : option pyval :=
  match descr with
  | PDict top =>
      match dict_get "data" top with
      | Some (PDict data) => dict_get k data
      | _ => None
      end
  | _ => None
  end.

(** ** Sample inputs *)

Module Sample.

Definition config (user : option string) : configuration :=
  {| rbd_pool := "rbd"; rbd_cluster_name := "ceph"; rbd_user := user;
     rbd_secret_uuid := Some "abc"; use_multipath_for_image_xfer := false;
     num_volume_device_scan_tries := 3%Z |}.

(** A connector that maps the image at [/dev/rbd0]; [valid] is what its
    [check_valid_device] does and [detach] what the base detach does. *)
Definition world (valid : outcome pyval) (detach : outcome unit)
    : collaborators :=
  {| get_mon_addrs := Ok (["10.0.0.1"], ["6789"]);
     brick_get_connector := fun _ _ _ _ => Ok (PObj 1);
     connect_volume := fun _ _ => Ok (PDict [("path", PStr "/dev/rbd0")]);
     secure_file_operations_enabled := Ok (PBool false);
     check_valid_device := fun _ _ _ => valid;
     base_detach_volume := fun _ _ _ _ _ _ => detach;
     py_repr := fun _ => "<object>" |}.

Definition rbd2 (user : option string) (valid : outcome pyval) : driver :=
  {| conf := config user; ext := world valid (Ok tt) |}.

Definition vol1 : volume :=
  {| name := "volume-vol1"; id := "vol1"; encryption_key_id := None |}.

Definition vol2 : volume :=
  {| name := "volume-vol2"; id := "vol2"; encryption_key_id := Some "key1" |}.

Definition idle : host := {| links := ∅; protected := ∅; trace := [] |}.

(** The descriptor of [vol1] and of [vol2], as [initialize_connection]
    builds them. *)
Definition descriptor (user : option string) (vol : volume) : pyval :=
  match initialize_connection (rbd2 user (Ok (PBool true))) vol PNone idle with
  | (Return d, _) => d
  | (Raise _, _) => PNone
  end.

(** The body of a descriptor dictionary. *)
Definition body (v : pyval) : list (string * pyval) :=
  match v with PDict d => d | _ => [] end.

(** [descr['data']] *)
Definition payload (v : pyval) : pyval :=
  default PNone (dict_get "data" (body v)).

(** A driver whose connector cannot map the image. *)
Definition unreachable : driver :=
  {| conf := config (Some "cinder");
     ext := {| get_mon_addrs := Ok (["10.0.0.1"], ["6789"]);
               brick_get_connector := fun _ _ _ _ => Ok (PObj 1);
               connect_volume := fun _ _ => Fails "rbd map failed";
               secure_file_operations_enabled := Ok (PBool false);
               check_valid_device := fun _ _ _ => Ok (PBool true);
               base_detach_volume := fun _ _ _ _ _ _ => Ok tt;
               py_repr := fun _ => "<object>" |} |}.

(** The same driver with a base detach that behaves as [detach]. *)
Definition rbd2_detaching (detach : outcome unit) : driver :=
  {| conf := config (Some "cinder");
     ext := world (Ok (PBool true)) detach |}.

End Sample.

(** Further sample inputs: collaborators that fail at a chosen call,
    hosts with protected or existing links, and descriptors that
    [initialize_connection] does not build. *)
Module Cases.

Definition world (mon : outcome (list string * list string))
    (factory : outcome pyval) (secure valid : outcome pyval)
    (detach : outcome unit) : collaborators :=
  {| get_mon_addrs := mon;
     brick_get_connector := fun _ _ _ _ => factory;
     connect_volume := fun _ _ => Ok (PDict [("path", PStr "/dev/rbd0")]);
     secure_file_operations_enabled := secure;
     check_valid_device := fun _ _ _ => valid;
     base_detach_volume := fun _ _ _ _ _ _ => detach;
     py_repr := fun _ => "<object>" |}.

Definition rbd2 (mon : outcome (list string * list string))
    (factory : outcome pyval) (secure valid : outcome pyval)
    (detach : outcome unit) : driver :=
  {| conf := Sample.config (Some "cinder");
     ext := world mon factory secure valid detach |}.

(** The monitors answer, a connector is found, the file system is not a
    secure one; [valid] and [detach] vary. *)
Definition healthy (valid : outcome pyval) (detach : outcome unit) : driver :=
  rbd2 (Ok (["10.0.0.1"], ["6789"])) (Ok (PObj 1)) (Ok (PBool false))
    valid detach.

(** A host on which the link of [vol2] may not be written or removed. *)
Definition locked : host :=
  {| links := ∅; protected := {["/dev/rbd-volume-vol2"]}; trace := [] |}.

(** A host on which the link of another volume, [vol1], exists. *)
Definition busy : host :=
  {| links := {["/dev/rbd-volume-vol1" := "/dev/rbd7"]};
     protected := ∅; trace := [] |}.

(** A plaintext descriptor that also carries [encrypted] at top level. *)
Definition flagged (top : pyval) : pyval :=
  PDict [("driver_volume_type", PStr "rbd");
         ("data", PDict [("volume_id", PStr "vol1");
                         ("encrypted", PBool false)]);
         ("encrypted", top)].

End Cases.

(** ** Running the monad *)

Lemma logged_logged h evs1 evs2 :
  logged (logged h evs1) evs2 = logged h (evs1 ++ evs2).
Proof. unfold logged. simpl. by rewrite <- app_assoc. Qed.

Lemma logged_nil h : logged h [] = h.
Proof. destruct h. unfold logged. simpl. by rewrite app_nil_r. Qed.

Lemma bind_call_ok {A B} ev (o : outcome A) a (k : A -> M B) h :
  o = Ok a -> bind (call ev o) k h = k a (logged h [ev]).
Proof. intros ->. reflexivity. Qed.

Lemma bind_call_fails {A B} ev (o : outcome A) e (k : A -> M B) h :
  o = Fails e -> bind (call ev o) k h = (Raise (Foreign e), logged h [ev]).
Proof. intros ->. reflexivity. Qed.

Lemma bind_getitem {B} d key v (k : pyval -> M B) h :
  dict_get key d = Some v -> bind (getitem (PDict d) key) k h = k v h.
Proof. intros Hget. unfold bind, getitem. by rewrite Hget. Qed.

Lemma bind_getitem_missing {B} d key (k : pyval -> M B) h :
  dict_get key d = None ->
  bind (getitem (PDict d) key) k h = (Raise (KeyError key), h).
Proof. intros Hget. unfold bind, getitem. by rewrite Hget. Qed.

Lemma bind_ret {A B} (a : A) (k : A -> M B) h : bind (ret a) k h = k a h.
Proof. reflexivity. Qed.

Lemma bind_assoc {A B C} (m : M A) (f : A -> M B) (g : B -> M C) h :
  bind (bind m f) g h = bind m (fun a => bind (f a) g) h.
Proof. unfold bind. by destruct (m h) as [[a|e] h']. Qed.

Lemma bind_ext {A B} (m : M A) (k1 k2 : A -> M B) h :
  (forall a h', k1 a h' = k2 a h') -> bind m k1 h = bind m k2 h.
Proof. intros Hk. unfold bind. destruct (m h) as [[a|e] h']; auto. Qed.

(** ** The connection descriptor *)

Lemma initialize_connection_returns self vol connector h hosts ports :
  get_mon_addrs (ext self) = Ok (hosts, ports) ->
  exists top data,
    initialize_connection self vol connector h
    = (Return (PDict top),
       logged h [CallGetMonAddrs; LogDebug "connection data: %s" (PDict top)])
    /\ dict_get "driver_volume_type" top = Some (PStr "rbd")
    /\ dict_get "data" top = Some (PDict data)
    /\ dict_get "encrypted" top = None
    /\ dict_get "name" data
       = Some (PStr (rbd_pool (conf self) +:+ "/" +:+ name vol))
    /\ dict_get "auth_enabled" data
       = Some (PBool (is_not_none (of_opt_str (rbd_user (conf self)))))
    /\ dict_get "auth_username" data = Some (of_opt_str (rbd_user (conf self)))
    /\ dict_get "volume_id" data = Some (PStr (id vol))
    /\ dict_get "encrypted" data
       = Some (PBool (py_truthy (of_opt_str (encryption_key_id vol))))
    /\ dict_get "do_local_attach" data
       = Some (PBool (py_truthy (of_opt_str (encryption_key_id vol)))).
Proof.
  intros Hmon. unfold initialize_connection, bind, call, emit, ret.
  rewrite Hmon. simpl. rewrite logged_logged. simpl.
  do 2 eexists. split; [reflexivity|].
  repeat split; simpl; try reflexivity;
    destruct (py_truthy (of_opt_str (encryption_key_id vol))); reflexivity.
Qed.

(** Scenario A of the specification. *)
Example scenario_A :
  payload_field (Sample.descriptor (Some "cinder") Sample.vol1) "name"
    = Some (PStr "rbd/volume-vol1")
  /\ payload_field (Sample.descriptor (Some "cinder") Sample.vol1)
       "auth_enabled"
    = Some (PBool true)
  /\ payload_field (Sample.descriptor (Some "cinder") Sample.vol1) "encrypted"
    = Some (PBool false).
Proof. repeat split. Qed.

(** Scenario B of the specification, descriptor part. *)
Example scenario_B_descriptor :
  payload_field (Sample.descriptor (Some "cinder") Sample.vol2) "encrypted"
    = Some (PBool true)
  /\ payload_field (Sample.descriptor (Some "cinder") Sample.vol2)
       "do_local_attach"
    = Some (PBool true).
Proof. repeat split. Qed.

(** C3. Whenever [initialize_connection] builds a descriptor, its payload
    fields [encrypted] and [do_local_attach] are the same boolean: both
    [True] when the volume's [encryption_key_id] names a key, both [False]
    when it is [None]. *)
Theorem initialize_connection_encrypted_flags self vol connector h hosts ports :
  get_mon_addrs (ext self) = Ok (hosts, ports) ->
  exists d h',
    initialize_connection self vol connector h = (Return d, h')
    /\ payload_field d "encrypted" = payload_field d "do_local_attach"
    /\ (exists b, payload_field d "encrypted" = Some (PBool b))
    /\ (forall k, encryption_key_id vol = Some k -> k <> "" ->
          payload_field d "encrypted" = Some (PBool true)
          /\ payload_field d "do_local_attach" = Some (PBool true))
    /\ (encryption_key_id vol = None ->
          payload_field d "encrypted" = Some (PBool false)
          /\ payload_field d "do_local_attach" = Some (PBool false)).
Proof.
  intros Hmon.
  destruct (initialize_connection_returns self vol connector h _ _ Hmon)
    as (top & data & Hrun & _ & Hdata & _ & _ & _ & _ & _ & Henc & Hdla).
  exists (PDict top). eexists. split; [exact Hrun|].
  unfold payload_field. rewrite Hdata, Henc, Hdla.
  split; [reflexivity|]. split; [eauto|]. split.
  - intros k Hk Hne. rewrite Hk. simpl.
    destruct (String.eqb_spec k ""); [contradiction|]. auto.
  - intros Hk. rewrite Hk. auto.
Qed.

Lemma initialize_connection_encrypted_flags_witness :
  exists d h',
    initialize_connection (Sample.rbd2 (Some "cinder") (Ok (PBool true)))
      Sample.vol2 PNone Sample.idle = (Return d, h')
    /\ payload_field d "encrypted" = payload_field d "do_local_attach"
    /\ (exists b, payload_field d "encrypted" = Some (PBool b))
    /\ (forall k, encryption_key_id Sample.vol2 = Some k -> k <> "" ->
          payload_field d "encrypted" = Some (PBool true)
          /\ payload_field d "do_local_attach" = Some (PBool true))
    /\ (encryption_key_id Sample.vol2 = None ->
          payload_field d "encrypted" = Some (PBool false)
          /\ payload_field d "do_local_attach" = Some (PBool false)).
Proof.
  apply (initialize_connection_encrypted_flags
           (Sample.rbd2 (Some "cinder") (Ok (PBool true))) Sample.vol2 PNone
           Sample.idle ["10.0.0.1"] ["6789"]).
  reflexivity.
Defined.

(** The flags come from a truth test, so a key id that is the empty
    string counts as no key. *)
Lemma initialize_connection_empty_key_id self vol connector h hosts ports :
  get_mon_addrs (ext self) = Ok (hosts, ports) ->
  encryption_key_id vol = Some "" ->
  exists d h',
    initialize_connection self vol connector h = (Return d, h')
    /\ payload_field d "encrypted" = Some (PBool false)
    /\ payload_field d "do_local_attach" = Some (PBool false).
Proof.
  intros Hmon Hk.
  destruct (initialize_connection_returns self vol connector h _ _ Hmon)
    as (top & data & Hrun & _ & Hdata & _ & _ & _ & _ & _ & Henc & Hdla).
  exists (PDict top). eexists. split; [exact Hrun|].
  unfold payload_field. rewrite Hdata, Henc, Hdla, Hk. auto.
Qed.

(** C4, as stated, fails: with [rbd_user] configured as the empty string
    the descriptor has [auth_enabled = True], although the username is
    not a non-empty string. *)
Lemma auth_enabled_empty_username :
  exists d h',
    initialize_connection (Sample.rbd2 (Some "") (Ok (PBool true)))
      Sample.vol1 PNone Sample.idle = (Return d, h')
    /\ payload_field d "auth_enabled" = Some (PBool true)
    /\ ~ (exists u,
            rbd_user (conf (Sample.rbd2 (Some "") (Ok (PBool true)))) = Some u
            /\ u <> "").
Proof.
  do 2 eexists. split; [lazy; reflexivity|]. split; [reflexivity|].
  intros (u & Hu & Hne). simpl in Hu. congruence.
Qed.

(** C4, amended. Whenever [initialize_connection] builds a descriptor,
    its payload field [auth_enabled] is [True] if and only if the
    configured [rbd_user] is set, that is, is not [None]; an empty string
    counts as set. It is [False] otherwise. *)
Theorem initialize_connection_auth_enabled self vol connector h hosts ports :
  get_mon_addrs (ext self) = Ok (hosts, ports) ->
  exists d h',
    initialize_connection self vol connector h = (Return d, h')
    /\ (payload_field d "auth_enabled" = Some (PBool true)
        <-> rbd_user (conf self) <> None)
    /\ (payload_field d "auth_enabled" = Some (PBool false)
        <-> rbd_user (conf self) = None).
Proof.
  intros Hmon.
  destruct (initialize_connection_returns self vol connector h _ _ Hmon)
    as (top & data & Hrun & _ & Hdata & _ & _ & Hauth & _).
  exists (PDict top). eexists. split; [exact Hrun|].
  unfold payload_field. rewrite Hdata, Hauth.
  destruct (rbd_user (conf self)) as [u|]; simpl; split; split;
    intros; congruence.
Qed.

Lemma initialize_connection_auth_enabled_witness :
  exists d h',
    initialize_connection (Sample.rbd2 (Some "") (Ok (PBool true)))
      Sample.vol1 PNone Sample.idle = (Return d, h')
    /\ (payload_field d "auth_enabled" = Some (PBool true)
        <-> rbd_user (conf (Sample.rbd2 (Some "") (Ok (PBool true)))) <> None)
    /\ (payload_field d "auth_enabled" = Some (PBool false)
        <-> rbd_user (conf (Sample.rbd2 (Some "") (Ok (PBool true)))) = None).
Proof.
  apply (initialize_connection_auth_enabled
           (Sample.rbd2 (Some "") (Ok (PBool true))) Sample.vol1 PNone
           Sample.idle ["10.0.0.1"] ["6789"]).
  reflexivity.
Defined.

(** C5, as stated, fails: with no [rbd_user] configured the descriptor
    has [auth_enabled = False] and still carries the key [auth_username]
    (bound to [None]); the field is not absent. *)
Lemma auth_username_key_without_auth :
  exists d h',
    initialize_connection (Sample.rbd2 None (Ok (PBool true)))
      Sample.vol1 PNone Sample.idle = (Return d, h')
    /\ payload_field d "auth_enabled" = Some (PBool false)
    /\ payload_field d "auth_username" = Some PNone
    /\ dict_has "auth_username" (Sample.body (Sample.payload d)) = true.
Proof.
  do 2 eexists. split; [lazy; reflexivity|]. split; [reflexivity|].
  split; reflexivity.
Qed.

(** C5, amended. Every descriptor built by [initialize_connection] has
    the key [auth_username] in its payload, bound to the configured
    [rbd_user]; the bound value is different from [None] if and only if
    [auth_enabled] is [True], and it is [None] when authentication is
    disabled. *)
Theorem initialize_connection_auth_username self vol connector h hosts ports :
  get_mon_addrs (ext self) = Ok (hosts, ports) ->
  exists d h',
    initialize_connection self vol connector h = (Return d, h')
    /\ payload_field d "auth_username"
       = Some (of_opt_str (rbd_user (conf self)))
    /\ (payload_field d "auth_username" <> Some PNone
        <-> payload_field d "auth_enabled" = Some (PBool true))
    /\ (payload_field d "auth_enabled" = Some (PBool false)
        -> payload_field d "auth_username" = Some PNone).
Proof.
  intros Hmon.
  destruct (initialize_connection_returns self vol connector h _ _ Hmon)
    as (top & data & Hrun & _ & Hdata & _ & _ & Hauth & Huser & _).
  exists (PDict top). eexists. split; [exact Hrun|].
  unfold payload_field. rewrite Hdata, Hauth, Huser.
  split; [reflexivity|].
  destruct (rbd_user (conf self)) as [u|]; simpl; split;
    try split; intros; congruence.
Qed.

Lemma initialize_connection_auth_username_witness :
  exists d h',
    initialize_connection (Sample.rbd2 None (Ok (PBool true)))
      Sample.vol1 PNone Sample.idle = (Return d, h')
    /\ payload_field d "auth_username"
       = Some (of_opt_str
                 (rbd_user (conf (Sample.rbd2 None (Ok (PBool true))))))
    /\ (payload_field d "auth_username" <> Some PNone
        <-> payload_field d "auth_enabled" = Some (PBool true))
    /\ (payload_field d "auth_enabled" = Some (PBool false)
        -> payload_field d "auth_username" = Some PNone).
Proof.
  apply (initialize_connection_auth_username
           (Sample.rbd2 None (Ok (PBool true))) Sample.vol1 PNone
           Sample.idle ["10.0.0.1"] ["6789"]).
  reflexivity.
Defined.

(** ** Device validation *)

Lemma check_unavailable_answer self connector dev secure valid h :
  secure_file_operations_enabled (ext self) = Ok secure ->
  check_valid_device (ext self) connector dev (negb (py_truthy secure))
    = Ok valid ->
  check_unavailable self connector dev h
  = (Return (negb (py_truthy valid)),
     logged h [CallSecureFileOperationsEnabled;
               CallCheckValidDevice connector dev (negb (py_truthy secure))]).
Proof.
  intros Hsec Hvalid. unfold check_unavailable, try_except.
  rewrite (bind_call_ok _ _ _ _ _ Hsec). cbv zeta.
  rewrite (bind_call_ok _ _ _ _ _ Hvalid). unfold ret.
  by rewrite logged_logged.
Qed.

Lemma check_unavailable_check_raises self connector dev secure e h :
  secure_file_operations_enabled (ext self) = Ok secure ->
  check_valid_device (ext self) connector dev (negb (py_truthy secure))
    = Fails e ->
  check_unavailable self connector dev h
  = (Return true,
     logged h [CallSecureFileOperationsEnabled;
               CallCheckValidDevice connector dev (negb (py_truthy secure));
               LogException "Could not validate device %s" dev (Foreign e)]).
Proof.
  intros Hsec Hvalid. unfold check_unavailable, try_except.
  rewrite (bind_call_ok _ _ _ _ _ Hsec). cbv zeta.
  rewrite (bind_call_fails _ _ _ _ _ Hvalid). unfold emit.
  by rewrite !logged_logged.
Qed.

Lemma check_unavailable_secure_raises self connector dev e h :
  secure_file_operations_enabled (ext self) = Fails e ->
  check_unavailable self connector dev h
  = (Return true,
     logged h [CallSecureFileOperationsEnabled;
               LogException "Could not validate device %s" dev (Foreign e)]).
Proof.
  intros Hsec. unfold check_unavailable, try_except.
  rewrite (bind_call_fails _ _ _ _ _ Hsec). unfold emit.
  by rewrite !logged_logged.
Qed.

(** Validation never raises and runs no command on the host. *)
Lemma check_unavailable_total self connector dev h :
  exists unavailable evs,
    check_unavailable self connector dev h
    = (Return unavailable, logged h evs)
    /\ forallb (fun ev => negb (is_exec ev)) evs = true.
Proof.
  destruct (secure_file_operations_enabled (ext self)) as [secure|e] eqn:Hsec.
  - destruct (check_valid_device (ext self) connector dev
                (negb (py_truthy secure))) as [valid|e] eqn:Hvalid.
    + do 2 eexists. split;
        [by apply check_unavailable_answer with (secure := secure)|done].
    + do 2 eexists. split;
        [by apply check_unavailable_check_raises with (secure := secure)|done].
  - do 2 eexists. split; [by apply check_unavailable_secure_raises|done].
Qed.

(** ** Attach *)

Section Attach.

Variable self : driver.
Variables (c data dev : list (string * pyval)).
Variables (protocol connector raw enc : pyval).

Hypothesis Hprotocol : dict_get "driver_volume_type" c = Some protocol.
Hypothesis Hconnector :
  brick_get_connector (ext self) protocol
    (use_multipath_for_image_xfer (conf self))
    (num_volume_device_scan_tries (conf self)) (PDict c) = Ok connector.
Hypothesis Hdata : dict_get "data" c = Some (PDict data).
Hypothesis Hconnect :
  connect_volume (ext self) connector (PDict data) = Ok (PDict dev).
Hypothesis Hpath : dict_get "path" dev = Some raw.
Hypothesis Hencrypted : dict_get "encrypted" data = Some enc.

(** The encrypted branch, once the connector has answered. *)
Lemma connect_device_encrypted_branch h volume_id :
  py_truthy enc = true ->
  dict_get "volume_id" data = Some volume_id ->
  _connect_device self (PDict c) h
  = (execute ["ln"; "--symbolic"; "--force"; py_str self raw;
              "/dev/rbd-volume-" +:+ py_str self volume_id] ;;;
     ret (linked_record (PDict c)
            ("/dev/rbd-volume-" +:+ py_str self volume_id) connector))
      (logged h (attach_calls self (PDict c) protocol connector (PDict data))).
Proof.
  intros Henc Hvid. unfold _connect_device. cbv zeta.
  rewrite (bind_getitem _ _ _ _ _ Hprotocol).
  rewrite (bind_call_ok _ _ _ _ _ Hconnector).
  rewrite (bind_getitem _ _ _ _ _ Hdata).
  rewrite (bind_call_ok _ _ _ _ _ Hconnect).
  rewrite (bind_getitem _ _ _ _ _ Hpath).
  rewrite (bind_getitem _ _ _ _ _ Hdata).
  rewrite (bind_getitem _ _ _ _ _ Hencrypted).
  rewrite Henc, logged_logged.
  rewrite bind_assoc, (bind_getitem _ _ _ _ _ Hdata).
  rewrite bind_assoc, (bind_getitem _ _ _ _ _ Hvid).
  rewrite bind_assoc, (bind_getitem _ _ _ _ _ Hpath).
  rewrite bind_assoc. apply bind_ext. intros [] h'.
  rewrite bind_ret.
  rewrite (bind_getitem _ _ _ _ _ Hdata).
  rewrite (bind_getitem _ _ _ _ _ Hencrypted).
  rewrite Henc. reflexivity.
Qed.

(** The plaintext branch, once the connector has answered. *)
Lemma connect_device_plaintext_branch h :
  py_truthy enc = false ->
  _connect_device self (PDict c) h
  = (let! unavailable := check_unavailable self connector raw in
     let! guard :=
       if unavailable then
         let! top := getitem (PDict c) "encrypted" in ret (py_truthy top)
       else ret false in
     if guard then
       raise (DeviceUnavailable raw (plain_record (PDict c) raw connector)
                ("Unable to access the backend storage via the path "
                 +:+ py_str self raw +:+ "."))
     else ret (plain_record (PDict c) raw connector))
      (logged h (attach_calls self (PDict c) protocol connector (PDict data))).
Proof.
  intros Henc. unfold _connect_device. cbv zeta.
  rewrite (bind_getitem _ _ _ _ _ Hprotocol).
  rewrite (bind_call_ok _ _ _ _ _ Hconnector).
  rewrite (bind_getitem _ _ _ _ _ Hdata).
  rewrite (bind_call_ok _ _ _ _ _ Hconnect).
  rewrite (bind_getitem _ _ _ _ _ Hpath).
  rewrite (bind_getitem _ _ _ _ _ Hdata).
  rewrite (bind_getitem _ _ _ _ _ Hencrypted).
  rewrite Henc, logged_logged, bind_ret.
  rewrite (bind_getitem _ _ _ _ _ Hdata).
  rewrite (bind_getitem _ _ _ _ _ Hencrypted).
  rewrite Henc. change (negb false) with true. cbv iota.
  rewrite (bind_getitem _ _ _ _ _ Hpath).
  reflexivity.
Qed.

(** What the guard of line 153 does once the device has been classified
    unavailable: it subscripts the descriptor itself, not its payload. *)
Lemma connect_device_unavailable h hv evs :
  py_truthy enc = false ->
  check_unavailable self connector raw (logged h
      (attach_calls self (PDict c) protocol connector (PDict data)))
    = (Return true, logged hv evs) ->
  _connect_device self (PDict c) h
  = (match dict_get "encrypted" c with
     | None => Raise (KeyError "encrypted")
     | Some top =>
         if py_truthy top then
           Raise (DeviceUnavailable raw (plain_record (PDict c) raw connector)
                    ("Unable to access the backend storage via the path "
                     +:+ py_str self raw +:+ "."))
         else Return (plain_record (PDict c) raw connector)
     end, logged hv evs).
Proof.
  intros Henc Hcheck. rewrite (connect_device_plaintext_branch h Henc).
  unfold bind at 1. rewrite Hcheck.
  destruct (dict_get "encrypted" c) as [top|] eqn:Htop.
  - rewrite bind_assoc, (bind_getitem _ _ _ _ _ Htop), !bind_ret.
    by destruct (py_truthy top).
  - rewrite bind_assoc. by rewrite (bind_getitem_missing _ _ _ _ Htop).
Qed.

Lemma connect_device_available h hv evs :
  py_truthy enc = false ->
  check_unavailable self connector raw (logged h
      (attach_calls self (PDict c) protocol connector (PDict data)))
    = (Return false, logged hv evs) ->
  _connect_device self (PDict c) h
  = (Return (plain_record (PDict c) raw connector), logged hv evs).
Proof.
  intros Henc Hcheck. rewrite (connect_device_plaintext_branch h Henc).
  unfold bind at 1. by rewrite Hcheck.
Qed.

(** The plaintext attach whose validation answers "not valid": the
    outcome is decided by a top-level [encrypted] entry of the
    descriptor, and is a [KeyError] when there is none. *)
Lemma connect_device_invalid_device h secure valid :
  py_truthy enc = false ->
  secure_file_operations_enabled (ext self) = Ok secure ->
  check_valid_device (ext self) connector raw (negb (py_truthy secure))
    = Ok valid ->
  py_truthy valid = false ->
  _connect_device self (PDict c) h
  = (match dict_get "encrypted" c with
     | None => Raise (KeyError "encrypted")
     | Some top =>
         if py_truthy top then
           Raise (DeviceUnavailable raw (plain_record (PDict c) raw connector)
                    ("Unable to access the backend storage via the path "
                     +:+ py_str self raw +:+ "."))
         else Return (plain_record (PDict c) raw connector)
     end,
     logged h ((attach_calls self (PDict c) protocol connector (PDict data)) ++
               [CallSecureFileOperationsEnabled;
                CallCheckValidDevice connector raw (negb (py_truthy secure))])).
Proof.
  intros Henc Hsec Hvalid Hfalse.
  apply connect_device_unavailable; [done|].
  rewrite (check_unavailable_answer _ _ _ _ _ _ Hsec Hvalid).
  by rewrite Hfalse, logged_logged.
Qed.

(** C2. Attaching an encrypted volume whose id is [V] returns the record
    whose device path is ["/dev/rbd-volume-" ++ V], whatever raw path the
    connector gave; afterwards that link exists on the host and points
    at the raw path; and [check_valid_device] is not called. *)
Theorem connect_device_encrypted h V :
  py_truthy enc = true ->
  dict_get "volume_id" data = Some (PStr V) ->
  "/dev/rbd-volume-" +:+ V ∉ protected h ->
  exists h',
    _connect_device self (PDict c) h
    = (Return (linked_record (PDict c) ("/dev/rbd-volume-" +:+ V) connector),
       h')
    /\ links h' = <["/dev/rbd-volume-" +:+ V := py_str self raw]> (links h)
    /\ links h' !! ("/dev/rbd-volume-" +:+ V) = Some (py_str self raw)
    /\ protected h' = protected h
    /\ trace h'
       = (trace h ++
           (attach_calls self (PDict c) protocol connector (PDict data)) ++
          [Exec ["ln"; "--symbolic"; "--force"; py_str self raw;
                 "/dev/rbd-volume-" +:+ V]])%list
    /\ forallb (fun ev => negb (is_check_valid_device ev))
         ((attach_calls self (PDict c) protocol connector (PDict data)) ++
          [Exec ["ln"; "--symbolic"; "--force"; py_str self raw;
                 "/dev/rbd-volume-" +:+ V]]) = true.
Proof.
  intros Henc Hvid Hfree.
  rewrite (connect_device_encrypted_branch h _ Henc Hvid).
  change (py_str self (PStr V)) with V.
  unfold execute, bind, emit, ret. cbn [app].
  rewrite decide_True by done.
  rewrite decide_False by done.
  eexists. split; [reflexivity|]. cbn [links protected trace logged].
  split; [reflexivity|]. split; [by rewrite lookup_insert_eq|].
  split; [reflexivity|]. split; [|reflexivity].
  by rewrite <- app_assoc.
Qed.

(** When the helper may not write the link, the attach raises and no
    record is returned. *)
Lemma connect_device_encrypted_refused h V :
  py_truthy enc = true ->
  dict_get "volume_id" data = Some (PStr V) ->
  "/dev/rbd-volume-" +:+ V ∈ protected h ->
  exists h',
    _connect_device self (PDict c) h
    = (Raise (ProcessExecutionError
                ["ln"; "--symbolic"; "--force"; py_str self raw;
                 "/dev/rbd-volume-" +:+ V]), h')
    /\ links h' = links h.
Proof.
  intros Henc Hvid Hprot.
  rewrite (connect_device_encrypted_branch h _ Henc Hvid).
  change (py_str self (PStr V)) with V.
  unfold execute, bind, emit, ret. cbn [app].
  rewrite decide_True by done.
  rewrite decide_True by done.
  eexists. split; reflexivity.
Qed.

(** C6. A plaintext attach that returns, returns the record whose
    [device] entry is exactly the raw path the connector gave; the links
    on the host are unchanged and no command was run. *)
Theorem connect_device_plaintext h r h' :
  py_truthy enc = false ->
  _connect_device self (PDict c) h = (Return r, h') ->
  r = plain_record (PDict c) raw connector
  /\ getitem r "device" h' = (Return raw, h')
  /\ links h' = links h
  /\ exists evs,
       trace h' = (trace h ++
           (attach_calls self (PDict c) protocol connector (PDict data)) ++ evs)%list
       /\ forallb (fun ev => negb (is_exec ev)) (
           (attach_calls self (PDict c) protocol connector (PDict data)) ++ evs) = true.
Proof.
  intros Henc Hrun.
  destruct (check_unavailable_total self connector raw (logged h
      (attach_calls self (PDict c) protocol connector (PDict data))))
    as (unavailable & evs & Hcheck & Hevs).
  assert (r = plain_record (PDict c) raw connector
          /\ h' = logged (logged h
              (attach_calls self (PDict c) protocol connector (PDict data))) evs) as [-> ->].
  { destruct unavailable.
    - rewrite (connect_device_unavailable h _ _ Henc Hcheck) in Hrun.
      destruct (dict_get "encrypted" c) as [top|]; [|congruence].
      destruct (py_truthy top); [congruence|].
      by inversion Hrun.
    - rewrite (connect_device_available h _ _ Henc Hcheck) in Hrun.
      by inversion Hrun. }
  split; [reflexivity|]. split; [reflexivity|]. split; [reflexivity|].
  exists evs. split.
  - simpl. by rewrite <- app_assoc.
  - rewrite forallb_app. by rewrite Hevs.
Qed.

(** C7. When [check_valid_device] raises during a plaintext attach, the
    device is classified unavailable, the exception is logged, and it is
    not the exception (if any) that the attach raises: the attach ends as
    the guard on the descriptor's top-level [encrypted] entry decides. *)
Theorem connect_device_validation_raises h secure e :
  py_truthy enc = false ->
  secure_file_operations_enabled (ext self) = Ok secure ->
  check_valid_device (ext self) connector raw (negb (py_truthy secure))
    = Fails e ->
  check_unavailable self connector raw (logged h
      (attach_calls self (PDict c) protocol connector (PDict data)))
  = (Return true,
     logged (logged h
         (attach_calls self (PDict c) protocol connector (PDict data)))
       [CallSecureFileOperationsEnabled;
        CallCheckValidDevice connector raw (negb (py_truthy secure));
        LogException "Could not validate device %s" raw (Foreign e)])
  /\ exists res h',
       _connect_device self (PDict c) h = (res, h')
       /\ LogException "Could not validate device %s" raw (Foreign e)
          ∈ trace h'
       /\ (forall x, res <> Raise (Foreign x))
       /\ res = match dict_get "encrypted" c with
                | None => Raise (KeyError "encrypted")
                | Some top =>
                    if py_truthy top then
                      Raise (DeviceUnavailable raw
                               (plain_record (PDict c) raw connector)
                               ("Unable to access the backend storage via the path "
                                +:+ py_str self raw +:+ "."))
                    else Return (plain_record (PDict c) raw connector)
                end.
Proof.
  intros Henc Hsec Hvalid.
  pose proof (check_unavailable_check_raises self connector raw secure e
                (logged h
                    (attach_calls self (PDict c) protocol connector (PDict data))) Hsec Hvalid) as Hcheck.
  split; [exact Hcheck|].
  do 2 eexists. split; [exact (connect_device_unavailable h _ _ Henc Hcheck)|].
  split; [|split; [|reflexivity]].
  - cbn [trace logged]. rewrite !elem_of_app. right.
    rewrite !elem_of_cons. auto.
  - intros x. destruct (dict_get "encrypted" c) as [top|]; [|congruence].
    destruct (py_truthy top); congruence.
Qed.

End Attach.

(** C9. When the connector's [connect_volume] raises, [_connect_device]
    raises that same exception at once: [connect_volume] was called
    exactly once, no command was run, the links on the host are
    unchanged, and no attach record is returned. This holds whatever the
    descriptor says about encryption. *)
Theorem connect_device_connect_fails self c protocol connector data e h :
  dict_get "driver_volume_type" c = Some protocol ->
  brick_get_connector (ext self) protocol
    (use_multipath_for_image_xfer (conf self))
    (num_volume_device_scan_tries (conf self)) (PDict c) = Ok connector ->
  dict_get "data" c = Some data ->
  connect_volume (ext self) connector data = Fails e ->
  exists h',
    _connect_device self (PDict c) h = (Raise (Foreign e), h')
    /\ (forall r, fst (_connect_device self (PDict c) h) <> Return r)
    /\ links h' = links h
    /\ trace h'
       = (trace h ++ attach_calls self (PDict c) protocol connector data)%list
    /\ forallb (fun ev => negb (is_exec ev))
         (attach_calls self (PDict c) protocol connector data) = true
    /\ length (filter (fun ev => is_connect_volume ev = true)
                 (attach_calls self (PDict c) protocol connector data)) = 1.
Proof.
  intros Hprotocol Hconnector Hdata Hconnect.
  assert (_connect_device self (PDict c) h
          = (Raise (Foreign e),
             logged h (attach_calls self (PDict c) protocol connector data)))
    as Hrun.
  { unfold _connect_device. cbv zeta.
    rewrite (bind_getitem _ _ _ _ _ Hprotocol).
    rewrite (bind_call_ok _ _ _ _ _ Hconnector).
    rewrite (bind_getitem _ _ _ _ _ Hdata).
    rewrite (bind_call_fails _ _ _ _ _ Hconnect).
    by rewrite logged_logged. }
  eexists. split; [exact Hrun|]. rewrite Hrun.
  split; [intros r; simpl; congruence|].
  repeat split.
Qed.

Lemma connect_device_connect_fails_witness :
  exists h',
    _connect_device Sample.unreachable
      (Sample.descriptor (Some "cinder") Sample.vol2) Sample.idle
    = (Raise (Foreign "rbd map failed"), h')
    /\ links h' = links Sample.idle.
Proof.
  destruct (connect_device_connect_fails Sample.unreachable
              (Sample.body (Sample.descriptor (Some "cinder") Sample.vol2))
              (PStr "rbd") (PObj 1)
              (Sample.payload (Sample.descriptor (Some "cinder") Sample.vol2))
              "rbd map failed" Sample.idle
              eq_refl eq_refl eq_refl eq_refl)
    as (h' & Hrun & _ & Hlinks & _).
  exists h'. split; [exact Hrun | exact Hlinks].
Defined.

Lemma connect_device_encrypted_witness :
  exists h',
    _connect_device (Sample.rbd2 (Some "cinder") (Ok (PBool true)))
      (Sample.descriptor (Some "cinder") Sample.vol2) Sample.idle
    = (Return (linked_record (Sample.descriptor (Some "cinder") Sample.vol2)
                 "/dev/rbd-volume-vol2" (PObj 1)), h')
    /\ links h' !! "/dev/rbd-volume-vol2" = Some "/dev/rbd0"
    /\ forallb (fun ev => negb (is_check_valid_device ev))
         (trace h') = true.
Proof.
  destruct (connect_device_encrypted
              (Sample.rbd2 (Some "cinder") (Ok (PBool true)))
              (Sample.body (Sample.descriptor (Some "cinder") Sample.vol2))
              (Sample.body
                 (Sample.payload
                    (Sample.descriptor (Some "cinder") Sample.vol2)))
              [("path", PStr "/dev/rbd0")]
              (PStr "rbd") (PObj 1) (PStr "/dev/rbd0") (PBool true)
              eq_refl eq_refl eq_refl eq_refl eq_refl eq_refl
              Sample.idle "vol2" eq_refl eq_refl)
    as (h' & Hrun & _ & Hlink & _ & Htrace & _).
  - vm_compute. intros H. discriminate H.
  - exists h'. split; [exact Hrun|]. split; [exact Hlink|].
    rewrite Htrace. reflexivity.
Defined.

Lemma connect_device_plaintext_witness :
  getitem
    (plain_record (Sample.descriptor (Some "cinder") Sample.vol1)
       (PStr "/dev/rbd0") (PObj 1))
    "device"
    (snd (_connect_device (Sample.rbd2 (Some "cinder") (Ok (PBool true)))
            (Sample.descriptor (Some "cinder") Sample.vol1) Sample.idle))
  = (Return (PStr "/dev/rbd0"),
     snd (_connect_device (Sample.rbd2 (Some "cinder") (Ok (PBool true)))
            (Sample.descriptor (Some "cinder") Sample.vol1) Sample.idle))
  /\ links
       (snd (_connect_device (Sample.rbd2 (Some "cinder") (Ok (PBool true)))
               (Sample.descriptor (Some "cinder") Sample.vol1) Sample.idle))
     = links Sample.idle.
Proof.
  destruct (connect_device_plaintext
              (Sample.rbd2 (Some "cinder") (Ok (PBool true)))
              (Sample.body (Sample.descriptor (Some "cinder") Sample.vol1))
              (Sample.body
                 (Sample.payload
                    (Sample.descriptor (Some "cinder") Sample.vol1)))
              [("path", PStr "/dev/rbd0")]
              (PStr "rbd") (PObj 1) (PStr "/dev/rbd0") (PBool false)
              eq_refl eq_refl eq_refl eq_refl eq_refl eq_refl
              Sample.idle
              (plain_record (Sample.descriptor (Some "cinder") Sample.vol1)
                 (PStr "/dev/rbd0") (PObj 1))
              (snd (_connect_device
                      (Sample.rbd2 (Some "cinder") (Ok (PBool true)))
                      (Sample.descriptor (Some "cinder") Sample.vol1)
                      Sample.idle))
              eq_refl)
    as (_ & Hdevice & Hlinks & _).
  - vm_compute. reflexivity.
  - split; [exact Hdevice | exact Hlinks].
Defined.

Lemma connect_device_validation_raises_witness :
  exists res h',
    _connect_device (Sample.rbd2 (Some "cinder") (Fails "EIO"))
      (Sample.descriptor (Some "cinder") Sample.vol1) Sample.idle = (res, h')
    /\ LogException "Could not validate device %s" (PStr "/dev/rbd0")
         (Foreign "EIO") ∈ trace h'
    /\ (forall x, res <> Raise (Foreign x)).
Proof.
  destruct (connect_device_validation_raises
              (Sample.rbd2 (Some "cinder") (Fails "EIO"))
              (Sample.body (Sample.descriptor (Some "cinder") Sample.vol1))
              (Sample.body
                 (Sample.payload
                    (Sample.descriptor (Some "cinder") Sample.vol1)))
              [("path", PStr "/dev/rbd0")]
              (PStr "rbd") (PObj 1) (PStr "/dev/rbd0") (PBool false)
              eq_refl eq_refl eq_refl eq_refl eq_refl eq_refl
              Sample.idle (PBool false) "EIO" eq_refl eq_refl eq_refl)
    as (_ & res & h' & Hrun & Hlog & Hnot & _).
  exists res, h'. split; [exact Hrun|]. split; [exact Hlog | exact Hnot].
Defined.

(** C1, evaluated on a descriptor that [initialize_connection] built for
    a volume without encryption key, with a connector whose
    [check_valid_device] answers [False]: the attach does not return the
    record, it raises [KeyError('encrypted')], because the descriptor has
    no top-level [encrypted] entry for the guard to read. *)
Theorem connect_device_invalid_plaintext_raises_keyerror :
  payload_field (Sample.descriptor (Some "cinder") Sample.vol1) "encrypted"
    = Some (PBool false)
  /\ check_valid_device (ext (Sample.rbd2 (Some "cinder") (Ok (PBool false))))
       (PObj 1) (PStr "/dev/rbd0") true = Ok (PBool false)
  /\ fst (_connect_device (Sample.rbd2 (Some "cinder") (Ok (PBool false)))
            (Sample.descriptor (Some "cinder") Sample.vol1) Sample.idle)
     = Raise (KeyError "encrypted")
  /\ trace (snd (_connect_device
                   (Sample.rbd2 (Some "cinder") (Ok (PBool false)))
                   (Sample.descriptor (Some "cinder") Sample.vol1)
                   Sample.idle))
     = [CallGetConnector (PStr "rbd") false 3%Z
          (Sample.descriptor (Some "cinder") Sample.vol1);
        CallConnectVolume (PObj 1)
          (Sample.payload (Sample.descriptor (Some "cinder") Sample.vol1));
        CallSecureFileOperationsEnabled;
        CallCheckValidDevice (PObj 1) (PStr "/dev/rbd0") true].
Proof. repeat split; vm_compute; reflexivity. Qed.

(** The only descriptors on which an invalid plaintext device lets the
    attach return are those that carry a falsy [encrypted] entry at top
    level; [initialize_connection] never builds one. *)
Lemma connect_device_invalid_device_returns_iff self c data dev protocol
    connector raw enc h secure valid :
  dict_get "driver_volume_type" c = Some protocol ->
  brick_get_connector (ext self) protocol
    (use_multipath_for_image_xfer (conf self))
    (num_volume_device_scan_tries (conf self)) (PDict c) = Ok connector ->
  dict_get "data" c = Some (PDict data) ->
  connect_volume (ext self) connector (PDict data) = Ok (PDict dev) ->
  dict_get "path" dev = Some raw ->
  dict_get "encrypted" data = Some enc ->
  py_truthy enc = false ->
  secure_file_operations_enabled (ext self) = Ok secure ->
  check_valid_device (ext self) connector raw (negb (py_truthy secure))
    = Ok valid ->
  py_truthy valid = false ->
  (exists r, fst (_connect_device self (PDict c) h) = Return r)
  <-> (exists top, dict_get "encrypted" c = Some top /\ py_truthy top = false).
Proof.
  intros H1 H2 H3 H4 H5 H6 Henc Hsec Hvalid Hfalse.
  rewrite (connect_device_invalid_device self c data dev protocol connector
             raw enc H1 H2 H3 H4 H5 H6 h secure valid Henc Hsec Hvalid Hfalse).
  simpl. destruct (dict_get "encrypted" c) as [top|].
  - destruct (py_truthy top) eqn:Htop; split.
    + intros [r Hr]. discriminate Hr.
    + intros (top' & Heq & Hf). congruence.
    + eauto.
    + eauto.
  - split.
    + intros [r Hr]. discriminate Hr.
    + intros (top' & Heq & _). discriminate Heq.
Qed.

(** An attach that returns for an encrypted volume with id [V] returns
    the record that carries the link path, whatever the collaborators
    did. *)
Lemma connect_device_encrypted_record self c data enc V r h h' :
  dict_get "data" c = Some (PDict data) ->
  dict_get "encrypted" data = Some enc ->
  py_truthy enc = true ->
  dict_get "volume_id" data = Some (PStr V) ->
  _connect_device self (PDict c) h = (Return r, h') ->
  exists connector,
    r = linked_record (PDict c) ("/dev/rbd-volume-" +:+ V) connector.
Proof.
  intros Hdata Hencrypted Henc Hvid Hrun.
  destruct (dict_get "driver_volume_type" c) as [protocol|] eqn:Hprotocol;
    [|unfold _connect_device in Hrun; cbv zeta in Hrun;
      rewrite (bind_getitem_missing _ _ _ _ Hprotocol) in Hrun;
      discriminate Hrun].
  destruct (brick_get_connector (ext self) protocol
              (use_multipath_for_image_xfer (conf self))
              (num_volume_device_scan_tries (conf self)) (PDict c))
    as [connector|e] eqn:Hconnector;
    [|unfold _connect_device in Hrun; cbv zeta in Hrun;
      rewrite (bind_getitem _ _ _ _ _ Hprotocol) in Hrun;
      rewrite (bind_call_fails _ _ _ _ _ Hconnector) in Hrun;
      discriminate Hrun].
  destruct (connect_volume (ext self) connector (PDict data))
    as [device|e] eqn:Hconnect;
    [|unfold _connect_device in Hrun; cbv zeta in Hrun;
      rewrite (bind_getitem _ _ _ _ _ Hprotocol) in Hrun;
      rewrite (bind_call_ok _ _ _ _ _ Hconnector) in Hrun;
      rewrite (bind_getitem _ _ _ _ _ Hdata) in Hrun;
      rewrite (bind_call_fails _ _ _ _ _ Hconnect) in Hrun;
      discriminate Hrun].
  assert (exists dev raw, device = PDict dev /\ dict_get "path" dev = Some raw)
    as (dev & raw & -> & Hpath).
  { unfold _connect_device in Hrun; cbv zeta in Hrun.
    rewrite (bind_getitem _ _ _ _ _ Hprotocol) in Hrun.
    rewrite (bind_call_ok _ _ _ _ _ Hconnector) in Hrun.
    rewrite (bind_getitem _ _ _ _ _ Hdata) in Hrun.
    rewrite (bind_call_ok _ _ _ _ _ Hconnect) in Hrun.
    destruct device as [| | | |dev|]; try discriminate Hrun.
    destruct (dict_get "path" dev) as [raw|] eqn:Hpath; [eauto|].
    rewrite (bind_getitem_missing _ _ _ _ Hpath) in Hrun.
    discriminate Hrun. }
  rewrite (connect_device_encrypted_branch self c data dev protocol connector
             raw enc Hprotocol Hconnector Hdata Hconnect Hpath Hencrypted
             h (PStr V) Henc Hvid) in Hrun.
  exists connector. unfold bind in Hrun.
  destruct (execute _ _) as [[[]|e] h1]; [|discriminate Hrun].
  unfold ret in Hrun. by inversion Hrun.
Qed.

(** ** Detach *)

Section Detach.

Variable self : driver.
Variables (context properties : pyval) (vol : volume) (force remote : bool).

(** What the inherited detach, called first, leaves behind. *)
Lemma detach_volume_base_fails attach_info e h :
  base_detach_volume (ext self) context attach_info vol properties
    force remote = Fails e ->
  _detach_volume self context attach_info vol properties force remote h
  = (Raise (Foreign e),
     logged h [CallBaseDetachVolume context attach_info vol properties
                 force remote]).
Proof.
  intros Hbase. unfold _detach_volume.
  by rewrite (bind_call_fails _ _ _ _ _ Hbase).
Qed.

(** C10. Detaching a record whose descriptor payload has a falsy
    [encrypted] makes the inherited detach call and nothing else: the
    outcome is the inherited detach's, no command is run, and the links
    on the host are unchanged. *)
Theorem detach_volume_plaintext ai c data enc h :
  dict_get "conn" ai = Some (PDict c) ->
  dict_get "data" c = Some (PDict data) ->
  dict_get "encrypted" data = Some enc ->
  py_truthy enc = false ->
  exists h',
    _detach_volume self context (PDict ai) vol properties force remote h
    = (match base_detach_volume (ext self) context (PDict ai) vol properties
               force remote with
       | Ok _ => Return tt
       | Fails e => Raise (Foreign e)
       end, h')
    /\ links h' = links h
    /\ protected h' = protected h
    /\ trace h'
       = (trace h ++ [CallBaseDetachVolume context (PDict ai) vol properties
                        force remote])%list
    /\ forallb (fun ev => negb (is_exec ev))
         [CallBaseDetachVolume context (PDict ai) vol properties
            force remote] = true.
Proof.
  intros Hconn Hdata Hencrypted Henc.
  destruct (base_detach_volume (ext self) context (PDict ai) vol properties
              force remote) as [[]|e] eqn:Hbase.
  - exists (logged h [CallBaseDetachVolume context (PDict ai) vol properties
                        force remote]).
    split; [|repeat split].
    unfold _detach_volume.
    rewrite (bind_call_ok _ _ _ _ _ Hbase).
    rewrite (bind_getitem _ _ _ _ _ Hconn).
    rewrite (bind_getitem _ _ _ _ _ Hdata).
    rewrite (bind_getitem _ _ _ _ _ Hencrypted).
    rewrite Henc. reflexivity.
  - exists (logged h [CallBaseDetachVolume context (PDict ai) vol properties
                        force remote]).
    split; [by apply detach_volume_base_fails|repeat split].
Qed.

(** Detaching a record of the encrypted kind: the inherited detach, then
    [rm --force] on the path the record carries. *)
Lemma detach_volume_encrypted_branch c data enc sym connector h :
  dict_get "data" c = Some (PDict data) ->
  dict_get "encrypted" data = Some enc ->
  py_truthy enc = true ->
  base_detach_volume (ext self) context
    (linked_record (PDict c) sym connector) vol properties force remote
  = Ok tt ->
  _detach_volume self context (linked_record (PDict c) sym connector) vol
    properties force remote h
  = execute ["rm"; "--force"; sym]
      (logged h [CallBaseDetachVolume context
                   (linked_record (PDict c) sym connector) vol properties
                   force remote]).
Proof.
  intros Hdata Hencrypted Henc Hbase. unfold _detach_volume.
  rewrite (bind_call_ok _ _ _ _ _ Hbase). unfold linked_record.
  rewrite (bind_getitem _ "conn" (PDict c)) by reflexivity.
  rewrite (bind_getitem _ _ _ _ _ Hdata).
  rewrite (bind_getitem _ _ _ _ _ Hencrypted).
  rewrite Henc.
  rewrite (bind_getitem _ "device" (PDict [("path", PStr sym)]))
    by reflexivity.
  rewrite (bind_getitem _ "path" (PStr sym)) by reflexivity.
  reflexivity.
Qed.

End Detach.

(** [rm --force] on a path: gone afterwards when the helper may remove
    it or there is nothing to remove, an error otherwise. *)
Lemma execute_rm_force path h :
  execute ["rm"; "--force"; path] h
  = match links h !! path with
    | None => (Return tt, logged h [Exec ["rm"; "--force"; path]])
    | Some _ =>
        if decide (path ∈ protected h) then
          (Raise (ProcessExecutionError ["rm"; "--force"; path]),
           logged h [Exec ["rm"; "--force"; path]])
        else
          (Return tt,
           {| links := delete path (links h); protected := protected h;
              trace := trace h ++ [Exec ["rm"; "--force"; path]] |})
    end.
Proof.
  unfold execute, bind, emit. cbn [logged links protected trace].
  rewrite decide_True by done.
  destruct (links h !! path); [|reflexivity].
  by destruct (decide (path ∈ protected h)).
Qed.

(** C8. Take the record that an attach returned for an encrypted volume
    with id [V], and let the inherited detach succeed. If the helper may
    remove ["/dev/rbd-volume-" ++ V], or the link is not there, detach
    runs [rm --force] on that path and returns, the link is gone, and a
    second detach of the same record returns as well. If the link is
    there and the helper may not remove it, detach raises the failure of
    the command. *)
Theorem detach_volume_encrypted self context properties vol force remote
    c data enc V r h0 h0' h :
  dict_get "data" c = Some (PDict data) ->
  dict_get "encrypted" data = Some enc ->
  py_truthy enc = true ->
  dict_get "volume_id" data = Some (PStr V) ->
  _connect_device self (PDict c) h0 = (Return r, h0') ->
  base_detach_volume (ext self) context r vol properties force remote
    = Ok tt ->
  (links h !! ("/dev/rbd-volume-" +:+ V) = None
   \/ "/dev/rbd-volume-" +:+ V ∉ protected h ->
   exists h1,
     _detach_volume self context r vol properties force remote h
     = (Return tt, h1)
     /\ links h1 = delete ("/dev/rbd-volume-" +:+ V) (links h)
     /\ links h1 !! ("/dev/rbd-volume-" +:+ V) = None
     /\ trace h1
        = (trace h ++
           [CallBaseDetachVolume context r vol properties force remote;
            Exec ["rm"; "--force"; "/dev/rbd-volume-" +:+ V]])%list
     /\ exists h2,
          _detach_volume self context r vol properties force remote h1
          = (Return tt, h2)
          /\ links h2 = links h1)
  /\ (is_Some (links h !! ("/dev/rbd-volume-" +:+ V)) ->
      "/dev/rbd-volume-" +:+ V ∈ protected h ->
      exists h1,
        _detach_volume self context r vol properties force remote h
        = (Raise (ProcessExecutionError
                    ["rm"; "--force"; "/dev/rbd-volume-" +:+ V]), h1)
        /\ links h1 = links h).
Proof.
  intros Hdata Hencrypted Henc Hvid Hattach Hbase.
  destruct (connect_device_encrypted_record _ _ _ _ _ _ _ _
              Hdata Hencrypted Henc Hvid Hattach) as [connector ->].
  set (sym := "/dev/rbd-volume-" +:+ V) in *.
  pose proof (fun h => detach_volume_encrypted_branch self context properties
                vol force remote c data enc sym connector h
                Hdata Hencrypted Henc Hbase) as Hdetach.
  assert (forall h1, links h1 !! sym = None ->
            exists h2,
              _detach_volume self context (linked_record (PDict c) sym connector)
                vol properties force remote h1 = (Return tt, h2)
              /\ links h2 = links h1
              /\ trace h2
                 = (trace h1 ++
                    [CallBaseDetachVolume context
                       (linked_record (PDict c) sym connector) vol properties
                       force remote;
                     Exec ["rm"; "--force"; sym]])%list) as Habsent.
  { intros h1 Hnone. rewrite Hdetach, execute_rm_force.
    cbn [logged links protected trace]. rewrite Hnone.
    eexists. split; [reflexivity|]. cbn [logged links protected trace].
    split; [reflexivity|]. by rewrite <- app_assoc. }
  split.
  - intros Hok.
    destruct (links h !! sym) as [target|] eqn:Hlink.
    + destruct Hok as [Hnone|Hfree]; [discriminate Hnone|].
      rewrite Hdetach, execute_rm_force.
      cbn [logged links protected trace]. rewrite Hlink.
      rewrite decide_False by done.
      eexists. split; [reflexivity|]. cbn [links trace].
      split; [reflexivity|]. split; [apply lookup_delete_eq|].
      split; [by rewrite <- app_assoc|].
      destruct (Habsent
                  {| links := delete sym (links h); protected := protected h;
                     trace := (trace h ++
                               [CallBaseDetachVolume context
                                  (linked_record (PDict c) sym connector)
                                  vol properties force remote]) ++
                              [Exec ["rm"; "--force"; sym]] |})
        as (h2 & Hrun2 & Hlinks2 & _); [apply lookup_delete_eq|].
      exists h2. split; [exact Hrun2 | exact Hlinks2].
    + destruct (Habsent h Hlink) as (h1 & Hrun1 & Hlinks1 & Htrace1).
      exists h1. split; [exact Hrun1|].
      split; [by rewrite Hlinks1, delete_id|].
      split; [by rewrite Hlinks1|]. split; [exact Htrace1|].
      destruct (Habsent h1) as (h2 & Hrun2 & Hlinks2 & _);
        [by rewrite Hlinks1|].
      exists h2. split; [exact Hrun2 | exact Hlinks2].
  - intros [target Hlink] Hprot.
    rewrite Hdetach, execute_rm_force.
    cbn [logged links protected trace]. rewrite Hlink.
    rewrite decide_True by done.
    eexists. split; reflexivity.
Qed.

Lemma detach_volume_plaintext_witness :
  exists h',
    _detach_volume (Sample.rbd2_detaching (Ok tt)) PNone
      (plain_record (Sample.descriptor (Some "cinder") Sample.vol1)
         (PStr "/dev/rbd0") (PObj 1))
      Sample.vol1 PNone false false Sample.idle
    = (Return tt, h')
    /\ links h' = links Sample.idle
    /\ trace h'
       = [CallBaseDetachVolume PNone
            (plain_record (Sample.descriptor (Some "cinder") Sample.vol1)
               (PStr "/dev/rbd0") (PObj 1))
            Sample.vol1 PNone false false].
Proof.
  destruct (detach_volume_plaintext (Sample.rbd2_detaching (Ok tt)) PNone PNone
              Sample.vol1 false false
              (Sample.body
                 (plain_record (Sample.descriptor (Some "cinder") Sample.vol1)
                    (PStr "/dev/rbd0") (PObj 1)))
              (Sample.body (Sample.descriptor (Some "cinder") Sample.vol1))
              (Sample.body
                 (Sample.payload
                    (Sample.descriptor (Some "cinder") Sample.vol1)))
              (PBool false) Sample.idle eq_refl eq_refl eq_refl eq_refl)
    as (h' & Hrun & Hlinks & _ & Htrace & _).
  exists h'. split; [exact Hrun|]. split; [exact Hlinks | exact Htrace].
Defined.

Lemma detach_volume_encrypted_witness :
  exists h1,
    _detach_volume (Sample.rbd2 (Some "cinder") (Ok (PBool true))) PNone
      (linked_record (Sample.descriptor (Some "cinder") Sample.vol2)
         "/dev/rbd-volume-vol2" (PObj 1))
      Sample.vol2 PNone false false
      (snd (_connect_device (Sample.rbd2 (Some "cinder") (Ok (PBool true)))
              (Sample.descriptor (Some "cinder") Sample.vol2) Sample.idle))
    = (Return tt, h1)
    /\ links h1 !! "/dev/rbd-volume-vol2" = None
    /\ exists h2,
         _detach_volume (Sample.rbd2 (Some "cinder") (Ok (PBool true))) PNone
           (linked_record (Sample.descriptor (Some "cinder") Sample.vol2)
              "/dev/rbd-volume-vol2" (PObj 1))
           Sample.vol2 PNone false false h1
         = (Return tt, h2)
         /\ links h2 = links h1.
Proof.
  destruct (detach_volume_encrypted
              (Sample.rbd2 (Some "cinder") (Ok (PBool true))) PNone PNone
              Sample.vol2 false false
              (Sample.body (Sample.descriptor (Some "cinder") Sample.vol2))
              (Sample.body
                 (Sample.payload
                    (Sample.descriptor (Some "cinder") Sample.vol2)))
              (PBool true) "vol2"
              (linked_record (Sample.descriptor (Some "cinder") Sample.vol2)
                 "/dev/rbd-volume-vol2" (PObj 1))
              Sample.idle
              (snd (_connect_device
                      (Sample.rbd2 (Some "cinder") (Ok (PBool true)))
                      (Sample.descriptor (Some "cinder") Sample.vol2)
                      Sample.idle))
              (snd (_connect_device
                      (Sample.rbd2 (Some "cinder") (Ok (PBool true)))
                      (Sample.descriptor (Some "cinder") Sample.vol2)
                      Sample.idle))
              eq_refl eq_refl eq_refl eq_refl)
    as [Hremoved _].
  - vm_compute. reflexivity.
  - reflexivity.
  - destruct Hremoved as (h1 & Hrun & _ & Hgone & _ & Hsecond).
    + right. vm_compute. intros H. discriminate H.
    + exists h1. split; [exact Hrun|]. split; [exact Hgone | exact Hsecond].
Defined.

(** The link that the attach of [vol2] made is there before the detach
    above removes it. *)
Example scenario_B_attach :
  links (snd (_connect_device (Sample.rbd2 (Some "cinder") (Ok (PBool true)))
                (Sample.descriptor (Some "cinder") Sample.vol2) Sample.idle))
  !! "/dev/rbd-volume-vol2" = Some "/dev/rbd0".
Proof. vm_compute. reflexivity. Qed.


(** ** Further properties of the three methods *)

(** [ln --symbolic --force] on a link path: written when the helper may
    write it, an error otherwise. *)
Lemma execute_ln_force target link h :
  execute ["ln"; "--symbolic"; "--force"; target; link] h
  = if decide (link ∈ protected h) then
      (Raise (ProcessExecutionError
                ["ln"; "--symbolic"; "--force"; target; link]),
       logged h [Exec ["ln"; "--symbolic"; "--force"; target; link]])
    else
      (Return tt,
       {| links := <[link := target]> (links h); protected := protected h;
          trace := trace h ++
                   [Exec ["ln"; "--symbolic"; "--force"; target; link]] |}).
Proof.
  unfold execute, bind, emit. cbn [logged links protected trace].
  rewrite decide_True by done.
  by destruct (decide (link ∈ protected h)).
Qed.

(** X1. When the inherited [_get_mon_addrs] raises,
    [initialize_connection] raises the same exception: no descriptor is
    built and nothing is logged. *)
Theorem initialize_connection_mon_addrs_fail self vol connector h e :
  get_mon_addrs (ext self) = Fails e ->
  initialize_connection self vol connector h
  = (Raise (Foreign e), logged h [CallGetMonAddrs]).
Proof.
  intros Hmon. unfold initialize_connection.
  by rewrite (bind_call_fails _ _ _ _ _ Hmon).
Qed.

Lemma initialize_connection_mon_addrs_fail_witness :
  initialize_connection
    (Cases.rbd2 (Fails "no monitors") (Ok (PObj 1)) (Ok (PBool false))
       (Ok (PBool true)) (Ok tt))
    Sample.vol1 PNone Sample.idle
  = (Raise (Foreign "no monitors"), logged Sample.idle [CallGetMonAddrs]).
Proof.
  apply (initialize_connection_mon_addrs_fail
           (Cases.rbd2 (Fails "no monitors") (Ok (PObj 1)) (Ok (PBool false))
              (Ok (PBool true)) (Ok tt))
           Sample.vol1 PNone Sample.idle "no monitors").
  reflexivity.
Defined.

(** X2. A descriptor that is not a dictionary, or has no
    [driver_volume_type], is rejected with [TypeError], respectively
    [KeyError], before any collaborator is called: the host is left as it
    was. *)
Theorem connect_device_malformed_descriptor self conn h :
  match conn with
  | PDict c => dict_get "driver_volume_type" c = None
  | PObj _ => False
  | _ => True
  end ->
  _connect_device self conn h
  = (Raise (match conn with
            | PDict _ => KeyError "driver_volume_type"
            | _ => TypeError
            end), h).
Proof.
  intros Hbad. unfold _connect_device. cbv zeta.
  destruct conn as [| | | |c|]; try reflexivity.
  by rewrite (bind_getitem_missing _ _ _ _ Hbad).
Qed.

Lemma connect_device_malformed_descriptor_witness :
  _connect_device (Cases.healthy (Ok (PBool true)) (Ok tt))
    (PDict [("data", PDict [("encrypted", PBool false)])]) Sample.idle
  = (Raise (KeyError "driver_volume_type"), Sample.idle).
Proof.
  apply (connect_device_malformed_descriptor
           (Cases.healthy (Ok (PBool true)) (Ok tt))
           (PDict [("data", PDict [("encrypted", PBool false)])])
           Sample.idle).
  reflexivity.
Defined.

(** X3. When os-brick's connector factory raises, [_connect_device]
    raises the same exception and [connect_volume] is never called. *)
Theorem connect_device_no_connector self c protocol e h :
  dict_get "driver_volume_type" c = Some protocol ->
  brick_get_connector (ext self) protocol
    (use_multipath_for_image_xfer (conf self))
    (num_volume_device_scan_tries (conf self)) (PDict c) = Fails e ->
  _connect_device self (PDict c) h
  = (Raise (Foreign e),
     logged h [CallGetConnector protocol
                 (use_multipath_for_image_xfer (conf self))
                 (num_volume_device_scan_tries (conf self)) (PDict c)]).
Proof.
  intros Hprotocol Hfactory. unfold _connect_device. cbv zeta.
  rewrite (bind_getitem _ _ _ _ _ Hprotocol).
  by rewrite (bind_call_fails _ _ _ _ _ Hfactory).
Qed.

Lemma connect_device_no_connector_witness :
  _connect_device
    (Cases.rbd2 (Ok ([], [])) (Fails "unsupported protocol")
       (Ok (PBool false)) (Ok (PBool true)) (Ok tt))
    (Cases.flagged PNone) Sample.idle
  = (Raise (Foreign "unsupported protocol"),
     logged Sample.idle
       [CallGetConnector (PStr "rbd") false 3%Z (Cases.flagged PNone)]).
Proof.
  apply (connect_device_no_connector
           (Cases.rbd2 (Ok ([], [])) (Fails "unsupported protocol")
              (Ok (PBool false)) (Ok (PBool true)) (Ok tt))
           (Sample.body (Cases.flagged PNone)) (PStr "rbd")
           "unsupported protocol" Sample.idle); reflexivity.
Defined.

Section Connected.

Variable self : driver.
Variables (c data dev : list (string * pyval)).
Variables (protocol connector raw : pyval).

Hypothesis Hprotocol : dict_get "driver_volume_type" c = Some protocol.
Hypothesis Hconnector :
  brick_get_connector (ext self) protocol
    (use_multipath_for_image_xfer (conf self))
    (num_volume_device_scan_tries (conf self)) (PDict c) = Ok connector.
Hypothesis Hdata : dict_get "data" c = Some (PDict data).
Hypothesis Hconnect :
  connect_volume (ext self) connector (PDict data) = Ok (PDict dev).
Hypothesis Hpath : dict_get "path" dev = Some raw.

(** X4. When the payload has no [encrypted] entry, [_connect_device]
    raises [KeyError('encrypted')] after the connector has connected the
    volume: no link is written, no validation is run, and the connection
    is not undone. *)
Theorem connect_device_payload_without_flag h :
  dict_get "encrypted" data = None ->
  _connect_device self (PDict c) h
  = (Raise (KeyError "encrypted"),
     logged h (attach_calls self (PDict c) protocol connector (PDict data))).
Proof.
  intros Hnone. unfold _connect_device. cbv zeta.
  rewrite (bind_getitem _ _ _ _ _ Hprotocol).
  rewrite (bind_call_ok _ _ _ _ _ Hconnector).
  rewrite (bind_getitem _ _ _ _ _ Hdata).
  rewrite (bind_call_ok _ _ _ _ _ Hconnect).
  rewrite (bind_getitem _ _ _ _ _ Hpath).
  rewrite (bind_getitem _ _ _ _ _ Hdata).
  rewrite (bind_getitem_missing _ _ _ _ Hnone).
  by rewrite logged_logged.
Qed.

(** The encrypted branch with any [volume_id], link path writable. *)
Lemma connect_device_encrypted_run enc volume_id h :
  dict_get "encrypted" data = Some enc ->
  py_truthy enc = true ->
  dict_get "volume_id" data = Some volume_id ->
  "/dev/rbd-volume-" +:+ py_str self volume_id ∉ protected h ->
  _connect_device self (PDict c) h
  = (Return (linked_record (PDict c)
               ("/dev/rbd-volume-" +:+ py_str self volume_id) connector),
     {| links := <["/dev/rbd-volume-" +:+ py_str self volume_id
                   := py_str self raw]> (links h);
        protected := protected h;
        trace := trace h ++
                 attach_calls self (PDict c) protocol connector (PDict data) ++
                 [Exec ["ln"; "--symbolic"; "--force"; py_str self raw;
                        "/dev/rbd-volume-" +:+ py_str self volume_id]] |}).
Proof.
  intros Hencrypted Henc Hvid Hfree.
  rewrite (connect_device_encrypted_branch self c data dev protocol connector
             raw enc Hprotocol Hconnector Hdata Hconnect Hpath Hencrypted
             h volume_id Henc Hvid).
  unfold bind. rewrite execute_ln_force.
  cbn [logged links protected trace].
  rewrite decide_False by done. unfold ret.
  by rewrite <- app_assoc.
Qed.

(** X5. When the helper may not write the link, an encrypted attach
    raises the command's failure: no record is returned, the links are
    unchanged, and [check_valid_device] is not called. *)
Theorem connect_device_link_refused enc volume_id h :
  dict_get "encrypted" data = Some enc ->
  py_truthy enc = true ->
  dict_get "volume_id" data = Some volume_id ->
  "/dev/rbd-volume-" +:+ py_str self volume_id ∈ protected h ->
  _connect_device self (PDict c) h
  = (Raise (ProcessExecutionError
              ["ln"; "--symbolic"; "--force"; py_str self raw;
               "/dev/rbd-volume-" +:+ py_str self volume_id]),
     logged h
       (attach_calls self (PDict c) protocol connector (PDict data) ++
        [Exec ["ln"; "--symbolic"; "--force"; py_str self raw;
               "/dev/rbd-volume-" +:+ py_str self volume_id]])).
Proof.
  intros Hencrypted Henc Hvid Hprot.
  rewrite (connect_device_encrypted_branch self c data dev protocol connector
             raw enc Hprotocol Hconnector Hdata Hconnect Hpath Hencrypted
             h volume_id Henc Hvid).
  unfold bind. rewrite execute_ln_force.
  cbn [logged links protected trace].
  rewrite decide_True by done.
  by rewrite logged_logged.
Qed.

(** X6. An encrypted payload without [volume_id] makes the attach raise
    [KeyError('volume_id')] before any command is run. *)
Theorem connect_device_encrypted_without_volume_id enc h :
  dict_get "encrypted" data = Some enc ->
  py_truthy enc = true ->
  dict_get "volume_id" data = None ->
  _connect_device self (PDict c) h
  = (Raise (KeyError "volume_id"),
     logged h (attach_calls self (PDict c) protocol connector (PDict data))).
Proof.
  intros Hencrypted Henc Hnone. unfold _connect_device. cbv zeta.
  rewrite (bind_getitem _ _ _ _ _ Hprotocol).
  rewrite (bind_call_ok _ _ _ _ _ Hconnector).
  rewrite (bind_getitem _ _ _ _ _ Hdata).
  rewrite (bind_call_ok _ _ _ _ _ Hconnect).
  rewrite (bind_getitem _ _ _ _ _ Hpath).
  rewrite (bind_getitem _ _ _ _ _ Hdata).
  rewrite (bind_getitem _ _ _ _ _ Hencrypted).
  rewrite Henc, logged_logged.
  rewrite bind_assoc, (bind_getitem _ _ _ _ _ Hdata).
  rewrite bind_assoc.
  by rewrite (bind_getitem_missing _ _ _ _ Hnone).
Qed.

(** X7. A plaintext attach whose device is valid returns the record
    without reading a top-level [encrypted] entry (the guard
    short-circuits), and [check_valid_device] was asked with
    [root_access] equal to the negation of
    [secure_file_operations_enabled()]. *)
Theorem connect_device_valid_plaintext enc secure valid h :
  dict_get "encrypted" data = Some enc ->
  py_truthy enc = false ->
  secure_file_operations_enabled (ext self) = Ok secure ->
  check_valid_device (ext self) connector raw (negb (py_truthy secure))
    = Ok valid ->
  py_truthy valid = true ->
  _connect_device self (PDict c) h
  = (Return (plain_record (PDict c) raw connector),
     logged h
       (attach_calls self (PDict c) protocol connector (PDict data) ++
        [CallSecureFileOperationsEnabled;
         CallCheckValidDevice connector raw (negb (py_truthy secure))])).
Proof.
  intros Hencrypted Henc Hsec Hvalid Htrue.
  rewrite <- logged_logged.
  apply (connect_device_available self c data dev protocol connector raw enc
           Hprotocol Hconnector Hdata Hconnect Hpath Hencrypted); [done|].
  rewrite (check_unavailable_answer _ _ _ _ _ _ Hsec Hvalid).
  by rewrite Htrue.
Qed.

(** X8. When [secure_file_operations_enabled] raises during a plaintext
    attach, [check_valid_device] is never called; the exception is
    logged, the device counts as unavailable, and the attach ends as the
    guard on the descriptor's top-level [encrypted] entry decides. *)
Theorem connect_device_secure_check_raises enc e h :
  dict_get "encrypted" data = Some enc ->
  py_truthy enc = false ->
  secure_file_operations_enabled (ext self) = Fails e ->
  _connect_device self (PDict c) h
  = (match dict_get "encrypted" c with
     | None => Raise (KeyError "encrypted")
     | Some top =>
         if py_truthy top then
           Raise (DeviceUnavailable raw (plain_record (PDict c) raw connector)
                    ("Unable to access the backend storage via the path "
                     +:+ py_str self raw +:+ "."))
         else Return (plain_record (PDict c) raw connector)
     end,
     logged h
       (attach_calls self (PDict c) protocol connector (PDict data) ++
        [CallSecureFileOperationsEnabled;
         LogException "Could not validate device %s" raw (Foreign e)])).
Proof.
  intros Hencrypted Henc Hsec.
  rewrite <- logged_logged.
  apply (connect_device_unavailable self c data dev protocol connector raw enc
           Hprotocol Hconnector Hdata Hconnect Hpath Hencrypted); [done|].
  by rewrite (check_unavailable_secure_raises _ _ _ _ _ Hsec).
Qed.

(** X9. [DeviceUnavailable] is raised by a plaintext attach whose
    validation does not answer "valid" when the descriptor carries a
    truthy [encrypted] entry at top level; it carries the raw path, the
    attach record built so far and the reason text with that path. *)
Theorem connect_device_raises_device_unavailable enc top secure h :
  dict_get "encrypted" data = Some enc ->
  py_truthy enc = false ->
  dict_get "encrypted" c = Some top ->
  py_truthy top = true ->
  secure_file_operations_enabled (ext self) = Ok secure ->
  match check_valid_device (ext self) connector raw
          (negb (py_truthy secure)) with
  | Ok valid => py_truthy valid = false
  | Fails _ => True
  end ->
  fst (_connect_device self (PDict c) h)
  = Raise (DeviceUnavailable raw (plain_record (PDict c) raw connector)
             ("Unable to access the backend storage via the path "
              +:+ py_str self raw +:+ ".")).
Proof.
  intros Hencrypted Henc Htop Htruthy Hsec Hinvalid.
  destruct (check_valid_device (ext self) connector raw
              (negb (py_truthy secure))) as [valid|e] eqn:Hvalid.
  - rewrite (connect_device_invalid_device self c data dev protocol connector
               raw enc Hprotocol Hconnector Hdata Hconnect Hpath Hencrypted
               h secure valid Henc Hsec Hvalid Hinvalid).
    by rewrite Htop, Htruthy.
  - rewrite (connect_device_unavailable self c data dev protocol connector
               raw enc Hprotocol Hconnector Hdata Hconnect Hpath Hencrypted
               h _ _ Henc
               (check_unavailable_check_raises self connector raw secure e
                  _ Hsec Hvalid)).
    by rewrite Htop, Htruthy.
Qed.

End Connected.

Lemma connect_device_payload_without_flag_witness :
  fst (_connect_device (Cases.healthy (Ok (PBool true)) (Ok tt))
         (PDict [("driver_volume_type", PStr "rbd");
                 ("data", PDict [("volume_id", PStr "vol1")])])
         Sample.idle)
  = Raise (KeyError "encrypted").
Proof.
  rewrite (connect_device_payload_without_flag
             (Cases.healthy (Ok (PBool true)) (Ok tt))
             [("driver_volume_type", PStr "rbd");
              ("data", PDict [("volume_id", PStr "vol1")])]
             [("volume_id", PStr "vol1")] [("path", PStr "/dev/rbd0")]
             (PStr "rbd") (PObj 1) (PStr "/dev/rbd0")
             eq_refl eq_refl eq_refl eq_refl eq_refl Sample.idle eq_refl).
  reflexivity.
Defined.

Lemma connect_device_link_refused_witness :
  fst (_connect_device (Cases.healthy (Ok (PBool true)) (Ok tt))
         (Sample.descriptor (Some "cinder") Sample.vol2) Cases.locked)
  = Raise (ProcessExecutionError
             ["ln"; "--symbolic"; "--force"; "/dev/rbd0";
              "/dev/rbd-volume-vol2"])
  /\ links (snd (_connect_device (Cases.healthy (Ok (PBool true)) (Ok tt))
                   (Sample.descriptor (Some "cinder") Sample.vol2)
                   Cases.locked))
     = links Cases.locked.
Proof.
  assert ("/dev/rbd-volume-vol2" ∈ protected Cases.locked) as Hprot
    by (cbn [protected Cases.locked]; set_solver).
  pose proof (connect_device_link_refused
                (Cases.healthy (Ok (PBool true)) (Ok tt))
                (Sample.body (Sample.descriptor (Some "cinder") Sample.vol2))
                (Sample.body
                   (Sample.payload
                      (Sample.descriptor (Some "cinder") Sample.vol2)))
                [("path", PStr "/dev/rbd0")]
                (PStr "rbd") (PObj 1) (PStr "/dev/rbd0")
                eq_refl eq_refl eq_refl eq_refl eq_refl
                (PBool true) (PStr "vol2") Cases.locked
                eq_refl eq_refl eq_refl Hprot) as Hrun.
  change (PDict (Sample.body (Sample.descriptor (Some "cinder") Sample.vol2)))
    with (Sample.descriptor (Some "cinder") Sample.vol2) in Hrun.
  rewrite Hrun. split; reflexivity.
Defined.

Lemma connect_device_encrypted_without_volume_id_witness :
  fst (_connect_device (Cases.healthy (Ok (PBool true)) (Ok tt))
         (PDict [("driver_volume_type", PStr "rbd");
                 ("data", PDict [("encrypted", PBool true)])])
         Sample.idle)
  = Raise (KeyError "volume_id").
Proof.
  rewrite (connect_device_encrypted_without_volume_id
             (Cases.healthy (Ok (PBool true)) (Ok tt))
             [("driver_volume_type", PStr "rbd");
              ("data", PDict [("encrypted", PBool true)])]
             [("encrypted", PBool true)] [("path", PStr "/dev/rbd0")]
             (PStr "rbd") (PObj 1) (PStr "/dev/rbd0")
             eq_refl eq_refl eq_refl eq_refl eq_refl
             (PBool true) Sample.idle eq_refl eq_refl eq_refl).
  reflexivity.
Defined.

Lemma connect_device_valid_plaintext_witness :
  fst (_connect_device (Cases.healthy (Ok (PBool true)) (Ok tt))
         (Sample.descriptor (Some "cinder") Sample.vol1) Sample.idle)
  = Return (plain_record (Sample.descriptor (Some "cinder") Sample.vol1)
              (PStr "/dev/rbd0") (PObj 1)).
Proof.
  pose proof (connect_device_valid_plaintext
                (Cases.healthy (Ok (PBool true)) (Ok tt))
                (Sample.body (Sample.descriptor (Some "cinder") Sample.vol1))
                (Sample.body
                   (Sample.payload
                      (Sample.descriptor (Some "cinder") Sample.vol1)))
                [("path", PStr "/dev/rbd0")]
                (PStr "rbd") (PObj 1) (PStr "/dev/rbd0")
                eq_refl eq_refl eq_refl eq_refl eq_refl
                (PBool false) (PBool false) (PBool true) Sample.idle
                eq_refl eq_refl eq_refl eq_refl eq_refl) as Hrun.
  change (PDict (Sample.body (Sample.descriptor (Some "cinder") Sample.vol1)))
    with (Sample.descriptor (Some "cinder") Sample.vol1) in Hrun.
  rewrite Hrun. reflexivity.
Defined.

Lemma connect_device_secure_check_raises_witness :
  _connect_device
    (Cases.rbd2 (Ok ([], [])) (Ok (PObj 1)) (Fails "stat failed")
       (Ok (PBool true)) (Ok tt))
    (Cases.flagged (PBool false)) Sample.idle
  = (Return (plain_record (Cases.flagged (PBool false))
               (PStr "/dev/rbd0") (PObj 1)),
     logged Sample.idle
       [CallGetConnector (PStr "rbd") false 3%Z (Cases.flagged (PBool false));
        CallConnectVolume (PObj 1)
          (PDict [("volume_id", PStr "vol1"); ("encrypted", PBool false)]);
        CallSecureFileOperationsEnabled;
        LogException "Could not validate device %s" (PStr "/dev/rbd0")
          (Foreign "stat failed")]).
Proof.
  apply (connect_device_secure_check_raises
           (Cases.rbd2 (Ok ([], [])) (Ok (PObj 1)) (Fails "stat failed")
              (Ok (PBool true)) (Ok tt))
           (Sample.body (Cases.flagged (PBool false)))
           [("volume_id", PStr "vol1"); ("encrypted", PBool false)]
           [("path", PStr "/dev/rbd0")]
           (PStr "rbd") (PObj 1) (PStr "/dev/rbd0")
           eq_refl eq_refl eq_refl eq_refl eq_refl
           (PBool false) "stat failed" Sample.idle
           eq_refl eq_refl eq_refl).
Defined.

Lemma connect_device_raises_device_unavailable_witness :
  fst (_connect_device (Cases.healthy (Ok (PBool false)) (Ok tt))
         (Cases.flagged (PBool true)) Sample.idle)
  = Raise (DeviceUnavailable (PStr "/dev/rbd0")
             (plain_record (Cases.flagged (PBool true))
                (PStr "/dev/rbd0") (PObj 1))
             "Unable to access the backend storage via the path /dev/rbd0.").
Proof.
  apply (connect_device_raises_device_unavailable
           (Cases.healthy (Ok (PBool false)) (Ok tt))
           (Sample.body (Cases.flagged (PBool true)))
           [("volume_id", PStr "vol1"); ("encrypted", PBool false)]
           [("path", PStr "/dev/rbd0")]
           (PStr "rbd") (PObj 1) (PStr "/dev/rbd0")
           eq_refl eq_refl eq_refl eq_refl eq_refl
           (PBool false) (PBool true) (PBool false) Sample.idle
           eq_refl eq_refl eq_refl eq_refl eq_refl eq_refl).
Defined.

(** Detaching a record of the plaintext kind, inherited detach
    succeeding. *)
Lemma detach_volume_plain_record_run self context properties vol force remote
    c data enc path connector h :
  dict_get "data" c = Some (PDict data) ->
  dict_get "encrypted" data = Some enc ->
  py_truthy enc = false ->
  base_detach_volume (ext self) context
    (plain_record (PDict c) path connector) vol properties force remote
  = Ok tt ->
  _detach_volume self context (plain_record (PDict c) path connector) vol
    properties force remote h
  = (Return tt,
     logged h [CallBaseDetachVolume context
                 (plain_record (PDict c) path connector) vol properties
                 force remote]).
Proof.
  intros Hdata Hencrypted Henc Hbase. unfold _detach_volume.
  rewrite (bind_call_ok _ _ _ _ _ Hbase). unfold plain_record.
  rewrite (bind_getitem _ "conn" (PDict c)) by reflexivity.
  rewrite (bind_getitem _ _ _ _ _ Hdata).
  rewrite (bind_getitem _ _ _ _ _ Hencrypted).
  by rewrite Henc.
Qed.

Lemma link_path_inj V V' :
  "/dev/rbd-volume-" +:+ V' = "/dev/rbd-volume-" +:+ V -> V' = V.
Proof. simpl. intros H. by injection H. Qed.

(** X10. When the inherited detach raises, [_detach_volume] raises the
    same exception and stops there: no [rm] is run, so the link of an
    encrypted volume stays on the host. *)
Theorem detach_volume_inherited_failure self context attach_info vol
    properties force remote e h :
  base_detach_volume (ext self) context attach_info vol properties
    force remote = Fails e ->
  exists h',
    _detach_volume self context attach_info vol properties force remote h
    = (Raise (Foreign e), h')
    /\ links h' = links h
    /\ trace h'
       = (trace h ++ [CallBaseDetachVolume context attach_info vol properties
                        force remote])%list.
Proof.
  intros Hbase. eexists. split.
  - unfold _detach_volume. by rewrite (bind_call_fails _ _ _ _ _ Hbase).
  - split; reflexivity.
Qed.

Lemma detach_volume_inherited_failure_witness :
  exists h',
    _detach_volume (Cases.healthy (Ok (PBool true)) (Fails "busy")) PNone
      (linked_record (Sample.descriptor (Some "cinder") Sample.vol1)
         "/dev/rbd-volume-vol1" (PObj 1))
      Sample.vol1 PNone false false Cases.busy
    = (Raise (Foreign "busy"), h')
    /\ links h' !! "/dev/rbd-volume-vol1" = Some "/dev/rbd7".
Proof.
  destruct (detach_volume_inherited_failure
              (Cases.healthy (Ok (PBool true)) (Fails "busy")) PNone
              (linked_record (Sample.descriptor (Some "cinder") Sample.vol1)
                 "/dev/rbd-volume-vol1" (PObj 1))
              Sample.vol1 PNone false false "busy" Cases.busy eq_refl)
    as (h' & Hrun & Hlinks & _).
  exists h'. split; [exact Hrun|]. rewrite Hlinks. reflexivity.
Defined.

(** X11. Life cycle of an encrypted volume. For a volume whose
    [encryption_key_id] is a non-empty string, with collaborators that
    answer and a link path the helper may write: the descriptor is built,
    the attach returns a record and the link ["/dev/rbd-volume-" ++ id]
    points at the raw path, the detach of that record returns, and
    afterwards the link is gone; if it was not there before the attach,
    the links are exactly what they were. *)
Theorem encrypted_volume_life_cycle self vol k cn0 context properties
    force remote hosts ports connector dev raw h :
  get_mon_addrs (ext self) = Ok (hosts, ports) ->
  encryption_key_id vol = Some k ->
  k <> "" ->
  (forall conn,
     brick_get_connector (ext self) (PStr "rbd")
       (use_multipath_for_image_xfer (conf self))
       (num_volume_device_scan_tries (conf self)) conn = Ok connector) ->
  (forall data, connect_volume (ext self) connector data = Ok (PDict dev)) ->
  dict_get "path" dev = Some raw ->
  (forall r,
     base_detach_volume (ext self) context r vol properties force remote
     = Ok tt) ->
  "/dev/rbd-volume-" +:+ id vol ∉ protected h ->
  exists conn h1 r h2 h3,
    initialize_connection self vol cn0 h = (Return conn, h1)
    /\ _connect_device self conn h1 = (Return r, h2)
    /\ links h2 !! ("/dev/rbd-volume-" +:+ id vol) = Some (py_str self raw)
    /\ _detach_volume self context r vol properties force remote h2
       = (Return tt, h3)
    /\ links h3 = delete ("/dev/rbd-volume-" +:+ id vol) (links h)
    /\ (links h !! ("/dev/rbd-volume-" +:+ id vol) = None ->
        links h3 = links h).
Proof.
  intros Hmon Hk Hne Hfactory Hconnect Hpath Hbase Hfree.
  destruct (initialize_connection_returns self vol cn0 h _ _ Hmon)
    as (top & data & Hinit & Hproto & Hdata & _ & _ & _ & _ & Hvid & Henc & _).
  assert (py_truthy (PBool (py_truthy (of_opt_str (encryption_key_id vol))))
          = true) as Htruthy.
  { rewrite Hk. simpl. by destruct (String.eqb_spec k ""). }
  set (sym := "/dev/rbd-volume-" +:+ id vol) in *.
  set (h1 := logged h [CallGetMonAddrs;
                       LogDebug "connection data: %s" (PDict top)]) in *.
  pose proof (connect_device_encrypted_run self top data dev (PStr "rbd")
                connector raw Hproto (Hfactory _) Hdata (Hconnect _) Hpath
                _ (PStr (id vol)) h1 Henc Htruthy Hvid Hfree) as Hattach.
  change (py_str self (PStr (id vol))) with (id vol) in Hattach.
  fold sym in Hattach.
  do 5 eexists. split; [exact Hinit|]. split; [exact Hattach|].
  cbn [links]. split; [by rewrite lookup_insert_eq|].
  rewrite (detach_volume_encrypted_branch self context properties vol force
             remote top data _ sym connector _ Hdata Henc Htruthy (Hbase _)).
  rewrite execute_rm_force. cbn [logged links protected trace h1].
  rewrite lookup_insert_eq. rewrite decide_False by done.
  split; [reflexivity|]. cbn [links].
  rewrite delete_insert_eq. split; [reflexivity|].
  intros Hnone. by rewrite delete_id.
Qed.

Lemma encrypted_volume_life_cycle_witness :
  exists conn h1 r h2 h3,
    initialize_connection (Cases.healthy (Ok (PBool true)) (Ok tt))
      Sample.vol2 PNone Cases.busy = (Return conn, h1)
    /\ _connect_device (Cases.healthy (Ok (PBool true)) (Ok tt)) conn h1
       = (Return r, h2)
    /\ links h2 !! "/dev/rbd-volume-vol2" = Some "/dev/rbd0"
    /\ _detach_volume (Cases.healthy (Ok (PBool true)) (Ok tt)) PNone r
         Sample.vol2 PNone false false h2 = (Return tt, h3)
    /\ links h3 = links Cases.busy.
Proof.
  destruct (encrypted_volume_life_cycle
              (Cases.healthy (Ok (PBool true)) (Ok tt)) Sample.vol2 "key1"
              PNone PNone PNone false false ["10.0.0.1"] ["6789"] (PObj 1)
              [("path", PStr "/dev/rbd0")] (PStr "/dev/rbd0") Cases.busy
              eq_refl eq_refl)
    as (conn & h1 & r & h2 & h3 & Hinit & Hattach & Hlink & Hdetach & _ & Hsame).
  - discriminate.
  - intros conn. reflexivity.
  - intros data. reflexivity.
  - reflexivity.
  - intros r. reflexivity.
  - cbn [protected Cases.busy]. set_solver.
  - exists conn, h1, r, h2, h3.
    split; [exact Hinit|]. split; [exact Hattach|]. split; [exact Hlink|].
    split; [exact Hdetach|]. apply Hsame. reflexivity.
Defined.

(** X12. Life cycle of a plaintext volume. For a volume without
    encryption key, with collaborators that answer and a device that
    validates: the descriptor is built, the attach returns the record
    holding the raw path, the detach returns, and from start to end no
    command is run on the host and its links never change. *)
Theorem plaintext_volume_life_cycle self vol cn0 context properties
    force remote hosts ports connector dev raw secure valid h :
  get_mon_addrs (ext self) = Ok (hosts, ports) ->
  py_truthy (of_opt_str (encryption_key_id vol)) = false ->
  (forall conn,
     brick_get_connector (ext self) (PStr "rbd")
       (use_multipath_for_image_xfer (conf self))
       (num_volume_device_scan_tries (conf self)) conn = Ok connector) ->
  (forall data, connect_volume (ext self) connector data = Ok (PDict dev)) ->
  dict_get "path" dev = Some raw ->
  secure_file_operations_enabled (ext self) = Ok secure ->
  check_valid_device (ext self) connector raw (negb (py_truthy secure))
    = Ok valid ->
  py_truthy valid = true ->
  (forall r,
     base_detach_volume (ext self) context r vol properties force remote
     = Ok tt) ->
  exists conn h1 h2 h3 evs,
    initialize_connection self vol cn0 h = (Return conn, h1)
    /\ _connect_device self conn h1
       = (Return (plain_record conn raw connector), h2)
    /\ _detach_volume self context (plain_record conn raw connector) vol
         properties force remote h2 = (Return tt, h3)
    /\ links h1 = links h /\ links h2 = links h /\ links h3 = links h
    /\ trace h3 = (trace h ++ evs)%list
    /\ forallb (fun ev => negb (is_exec ev)) evs = true.
Proof.
  intros Hmon Hkey Hfactory Hconnect Hpath Hsec Hvalid Htrue Hbase.
  destruct (initialize_connection_returns self vol cn0 h _ _ Hmon)
    as (top & data & Hinit & Hproto & Hdata & _ & _ & _ & _ & _ & Henc & _).
  assert (py_truthy (PBool (py_truthy (of_opt_str (encryption_key_id vol))))
          = false) as Hfalsy by (by rewrite Hkey).
  set (h1 := logged h [CallGetMonAddrs;
                       LogDebug "connection data: %s" (PDict top)]) in *.
  pose proof (check_unavailable_answer self connector raw secure valid
                (logged h1 (attach_calls self (PDict top) (PStr "rbd")
                              connector (PDict data)))
                Hsec Hvalid) as Hcheck.
  rewrite Htrue in Hcheck.
  pose proof (connect_device_available self top data dev (PStr "rbd")
                connector raw _ Hproto (Hfactory _) Hdata (Hconnect _) Hpath
                Henc h1 _ _ Hfalsy Hcheck) as Hattach.
  do 5 eexists. split; [exact Hinit|]. split; [exact Hattach|].
  rewrite (detach_volume_plain_record_run self context properties vol force
             remote top data _ raw connector _ Hdata Henc Hfalsy (Hbase _)).
  split; [reflexivity|]. subst h1. rewrite !logged_logged.
  split; [reflexivity|]. split; [reflexivity|]. split; [reflexivity|].
  split; reflexivity.
Qed.

Lemma plaintext_volume_life_cycle_witness :
  exists conn h1 h2 h3,
    initialize_connection (Cases.healthy (Ok (PBool true)) (Ok tt))
      Sample.vol1 PNone Cases.busy = (Return conn, h1)
    /\ _connect_device (Cases.healthy (Ok (PBool true)) (Ok tt)) conn h1
       = (Return (plain_record conn (PStr "/dev/rbd0") (PObj 1)), h2)
    /\ _detach_volume (Cases.healthy (Ok (PBool true)) (Ok tt)) PNone
         (plain_record conn (PStr "/dev/rbd0") (PObj 1))
         Sample.vol1 PNone false false h2 = (Return tt, h3)
    /\ links h3 = links Cases.busy.
Proof.
  destruct (plaintext_volume_life_cycle
              (Cases.healthy (Ok (PBool true)) (Ok tt)) Sample.vol1
              PNone PNone PNone false false ["10.0.0.1"] ["6789"] (PObj 1)
              [("path", PStr "/dev/rbd0")] (PStr "/dev/rbd0")
              (PBool false) (PBool true) Cases.busy
              eq_refl eq_refl)
    as (conn & h1 & h2 & h3 & evs & Hinit & Hattach & Hdetach
        & _ & _ & Hlinks & _).
  - intros conn. reflexivity.
  - intros data. reflexivity.
  - reflexivity.
  - reflexivity.
  - reflexivity.
  - reflexivity.
  - intros r. reflexivity.
  - exists conn, h1, h2, h3.
    split; [exact Hinit|]. split; [exact Hattach|].
    split; [exact Hdetach | exact Hlinks].
Defined.

(** X13. Attaching a descriptor that [initialize_connection] built for
    a volume without encryption key never raises [DeviceUnavailable]:
    whenever the connector connects and validation does not answer
    "valid" (it answers a falsy value or raises), the attach raises
    [KeyError('encrypted')], on every host. *)
Theorem built_plaintext_descriptor_unavailable self vol cn0 hosts ports
    connector dev raw secure h0 :
  get_mon_addrs (ext self) = Ok (hosts, ports) ->
  py_truthy (of_opt_str (encryption_key_id vol)) = false ->
  (forall conn,
     brick_get_connector (ext self) (PStr "rbd")
       (use_multipath_for_image_xfer (conf self))
       (num_volume_device_scan_tries (conf self)) conn = Ok connector) ->
  (forall data, connect_volume (ext self) connector data = Ok (PDict dev)) ->
  dict_get "path" dev = Some raw ->
  secure_file_operations_enabled (ext self) = Ok secure ->
  match check_valid_device (ext self) connector raw
          (negb (py_truthy secure)) with
  | Ok valid => py_truthy valid = false
  | Fails _ => True
  end ->
  exists conn h1,
    initialize_connection self vol cn0 h0 = (Return conn, h1)
    /\ forall h,
         fst (_connect_device self conn h) = Raise (KeyError "encrypted").
Proof.
  intros Hmon Hkey Hfactory Hconnect Hpath Hsec Hinvalid.
  destruct (initialize_connection_returns self vol cn0 h0 _ _ Hmon)
    as (top & data & Hinit & Hproto & Hdata & Htop & _ & _ & _ & _ & Henc & _).
  assert (py_truthy (PBool (py_truthy (of_opt_str (encryption_key_id vol))))
          = false) as Hfalsy by (by rewrite Hkey).
  do 2 eexists. split; [exact Hinit|]. intros h.
  destruct (check_valid_device (ext self) connector raw
              (negb (py_truthy secure))) as [valid|e] eqn:Hvalid.
  - rewrite (connect_device_invalid_device self top data dev (PStr "rbd")
               connector raw _ Hproto (Hfactory _) Hdata (Hconnect _) Hpath
               Henc h secure valid Hfalsy Hsec Hvalid Hinvalid).
    by rewrite Htop.
  - rewrite (connect_device_unavailable self top data dev (PStr "rbd")
               connector raw _ Hproto (Hfactory _) Hdata (Hconnect _) Hpath
               Henc h _ _ Hfalsy
               (check_unavailable_check_raises self connector raw secure e
                  _ Hsec Hvalid)).
    by rewrite Htop.
Qed.

Lemma built_plaintext_descriptor_unavailable_witness :
  exists conn h1,
    initialize_connection (Cases.healthy (Fails "EIO") (Ok tt))
      Sample.vol1 PNone Sample.idle = (Return conn, h1)
    /\ fst (_connect_device (Cases.healthy (Fails "EIO") (Ok tt)) conn
              Cases.busy)
       = Raise (KeyError "encrypted").
Proof.
  destruct (built_plaintext_descriptor_unavailable
              (Cases.healthy (Fails "EIO") (Ok tt)) Sample.vol1 PNone
              ["10.0.0.1"] ["6789"] (PObj 1)
              [("path", PStr "/dev/rbd0")] (PStr "/dev/rbd0") (PBool false)
              Sample.idle eq_refl eq_refl)
    as (conn & h1 & Hinit & Hattach).
  - intros conn. reflexivity.
  - intros data. reflexivity.
  - reflexivity.
  - reflexivity.
  - exact I.
  - exists conn, h1. split; [exact Hinit | exact (Hattach Cases.busy)].
Defined.

(** X14. Volumes with different ids do not interfere: attaching an
    encrypted volume with id [V] and detaching it again leaves the link
    of every other id [V'] as it was, both while [V] is attached and
    after it is detached. *)
Theorem other_volume_link_kept self c data dev protocol connector raw enc
    V V' context vol properties force remote h :
  dict_get "driver_volume_type" c = Some protocol ->
  brick_get_connector (ext self) protocol
    (use_multipath_for_image_xfer (conf self))
    (num_volume_device_scan_tries (conf self)) (PDict c) = Ok connector ->
  dict_get "data" c = Some (PDict data) ->
  connect_volume (ext self) connector (PDict data) = Ok (PDict dev) ->
  dict_get "path" dev = Some raw ->
  dict_get "encrypted" data = Some enc ->
  py_truthy enc = true ->
  dict_get "volume_id" data = Some (PStr V) ->
  "/dev/rbd-volume-" +:+ V ∉ protected h ->
  base_detach_volume (ext self) context
    (linked_record (PDict c) ("/dev/rbd-volume-" +:+ V) connector)
    vol properties force remote = Ok tt ->
  V' <> V ->
  exists h1 h2,
    _connect_device self (PDict c) h
    = (Return (linked_record (PDict c) ("/dev/rbd-volume-" +:+ V) connector),
       h1)
    /\ _detach_volume self context
         (linked_record (PDict c) ("/dev/rbd-volume-" +:+ V) connector)
         vol properties force remote h1 = (Return tt, h2)
    /\ links h1 !! ("/dev/rbd-volume-" +:+ V')
       = links h !! ("/dev/rbd-volume-" +:+ V')
    /\ links h2 !! ("/dev/rbd-volume-" +:+ V')
       = links h !! ("/dev/rbd-volume-" +:+ V').
Proof.
  intros Hproto Hfactory Hdata Hconnect Hpath Hencrypted Henc Hvid Hfree
    Hbase Hne.
  assert ("/dev/rbd-volume-" +:+ V <> "/dev/rbd-volume-" +:+ V') as Hsym.
  { intros Heq. apply Hne. by apply link_path_inj. }
  pose proof (connect_device_encrypted_run self c data dev protocol connector
                raw Hproto Hfactory Hdata Hconnect Hpath enc (PStr V) h
                Hencrypted Henc Hvid Hfree) as Hattach.
  change (py_str self (PStr V)) with V in Hattach.
  do 2 eexists. split; [exact Hattach|].
  rewrite (detach_volume_encrypted_branch self context properties vol force
             remote c data enc _ connector _ Hdata Hencrypted Henc Hbase).
  rewrite execute_rm_force. cbn [logged links protected trace].
  rewrite lookup_insert_eq. rewrite decide_False by done.
  split; [reflexivity|]. cbn [links].
  split.
  - by rewrite lookup_insert_ne.
  - rewrite lookup_delete_ne by done. by rewrite lookup_insert_ne.
Qed.

Lemma other_volume_link_kept_witness :
  exists h1 h2,
    _connect_device (Cases.healthy (Ok (PBool true)) (Ok tt))
      (Sample.descriptor (Some "cinder") Sample.vol2) Cases.busy
    = (Return (linked_record (Sample.descriptor (Some "cinder") Sample.vol2)
                 "/dev/rbd-volume-vol2" (PObj 1)), h1)
    /\ _detach_volume (Cases.healthy (Ok (PBool true)) (Ok tt)) PNone
         (linked_record (Sample.descriptor (Some "cinder") Sample.vol2)
            "/dev/rbd-volume-vol2" (PObj 1))
         Sample.vol2 PNone false false h1 = (Return tt, h2)
    /\ links h1 !! "/dev/rbd-volume-vol1" = Some "/dev/rbd7"
    /\ links h2 !! "/dev/rbd-volume-vol1" = Some "/dev/rbd7".
Proof.
  destruct (other_volume_link_kept
              (Cases.healthy (Ok (PBool true)) (Ok tt))
              (Sample.body (Sample.descriptor (Some "cinder") Sample.vol2))
              (Sample.body
                 (Sample.payload
                    (Sample.descriptor (Some "cinder") Sample.vol2)))
              [("path", PStr "/dev/rbd0")]
              (PStr "rbd") (PObj 1) (PStr "/dev/rbd0") (PBool true)
              "vol2" "vol1" PNone Sample.vol2 PNone false false Cases.busy
              eq_refl eq_refl eq_refl eq_refl eq_refl eq_refl eq_refl eq_refl)
    as (h1 & h2 & Hattach & Hdetach & Hkept1 & Hkept2).
  - cbn [protected Cases.busy]. set_solver.
  - reflexivity.
  - discriminate.
  - exists h1, h2. split; [exact Hattach|]. split; [exact Hdetach|].
    split; [exact Hkept1 | exact Hkept2].
Defined.

(** X15. On the encrypted branch nothing is ever validated, whatever the
    outcome: once the connector has connected an encrypted payload, the
    attach, whether it returns or raises, has not called
    [check_valid_device] and does not raise [DeviceUnavailable]. *)
Theorem connect_device_encrypted_never_validates self c data dev protocol
    connector raw enc h :
  dict_get "driver_volume_type" c = Some protocol ->
  brick_get_connector (ext self) protocol
    (use_multipath_for_image_xfer (conf self))
    (num_volume_device_scan_tries (conf self)) (PDict c) = Ok connector ->
  dict_get "data" c = Some (PDict data) ->
  connect_volume (ext self) connector (PDict data) = Ok (PDict dev) ->
  dict_get "path" dev = Some raw ->
  dict_get "encrypted" data = Some enc ->
  py_truthy enc = true ->
  exists evs,
    trace (snd (_connect_device self (PDict c) h)) = (trace h ++ evs)%list
    /\ forallb (fun ev => negb (is_check_valid_device ev)) evs = true
    /\ forall path attach_info reason,
         fst (_connect_device self (PDict c) h)
         <> Raise (DeviceUnavailable path attach_info reason).
Proof.
  intros Hproto Hfactory Hdata Hconnect Hpath Hencrypted Henc.
  destruct (dict_get "volume_id" data) as [volume_id|] eqn:Hvid.
  - rewrite (connect_device_encrypted_branch self c data dev protocol
               connector raw enc Hproto Hfactory Hdata Hconnect Hpath
               Hencrypted h volume_id Henc Hvid).
    unfold bind. rewrite execute_ln_force.
    cbn [logged links protected trace].
    destruct (decide (_ ∈ protected h)).
    + eexists. split; [cbn; by rewrite <- app_assoc|].
      split; [reflexivity|]. intros; discriminate.
    + eexists. split; [cbn; by rewrite <- app_assoc|].
      split; [reflexivity|]. intros; discriminate.
  - assert (_connect_device self (PDict c) h
            = (Raise (KeyError "volume_id"),
               logged h (attach_calls self (PDict c) protocol connector
                           (PDict data)))) as ->.
    { unfold _connect_device. cbv zeta.
      rewrite (bind_getitem _ _ _ _ _ Hproto).
      rewrite (bind_call_ok _ _ _ _ _ Hfactory).
      rewrite (bind_getitem _ _ _ _ _ Hdata).
      rewrite (bind_call_ok _ _ _ _ _ Hconnect).
      rewrite (bind_getitem _ _ _ _ _ Hpath).
      rewrite (bind_getitem _ _ _ _ _ Hdata).
      rewrite (bind_getitem _ _ _ _ _ Hencrypted).
      rewrite Henc, logged_logged.
      rewrite bind_assoc, (bind_getitem _ _ _ _ _ Hdata).
      rewrite bind_assoc.
      by rewrite (bind_getitem_missing _ _ _ _ Hvid). }
    eexists. split; [reflexivity|]. split; [reflexivity|].
    intros; discriminate.
Qed.

Lemma connect_device_encrypted_never_validates_witness :
  exists evs,
    trace (snd (_connect_device (Cases.healthy (Ok (PBool false)) (Ok tt))
                  (Sample.descriptor (Some "cinder") Sample.vol2)
                  Cases.locked))
    = evs
    /\ forallb (fun ev => negb (is_check_valid_device ev)) evs = true.
Proof.
  destruct (connect_device_encrypted_never_validates
              (Cases.healthy (Ok (PBool false)) (Ok tt))
              (Sample.body (Sample.descriptor (Some "cinder") Sample.vol2))
              (Sample.body
                 (Sample.payload
                    (Sample.descriptor (Some "cinder") Sample.vol2)))
              [("path", PStr "/dev/rbd0")]
              (PStr "rbd") (PObj 1) (PStr "/dev/rbd0") (PBool true)
              Cases.locked
              eq_refl eq_refl eq_refl eq_refl eq_refl eq_refl eq_refl)
    as (evs & Htrace & Hnone & _).
  exists evs. split; [exact Htrace | exact Hnone].
Defined.

(** X16. [_detach_volume] calls the inherited detach before it looks at
    the record: a record without [conn] makes it raise
    [KeyError('conn')] only after the inherited detach has run, and no
    command is run. *)
Theorem detach_volume_record_without_conn self context ai vol properties
    force remote h :
  dict_get "conn" ai = None ->
  base_detach_volume (ext self) context (PDict ai) vol properties
    force remote = Ok tt ->
  _detach_volume self context (PDict ai) vol properties force remote h
  = (Raise (KeyError "conn"),
     logged h [CallBaseDetachVolume context (PDict ai) vol properties
                 force remote]).
Proof.
  intros Hnone Hbase. unfold _detach_volume.
  rewrite (bind_call_ok _ _ _ _ _ Hbase).
  by rewrite (bind_getitem_missing _ _ _ _ Hnone).
Qed.

Lemma detach_volume_record_without_conn_witness :
  _detach_volume (Cases.healthy (Ok (PBool true)) (Ok tt)) PNone
    (PDict [("device", PStr "/dev/rbd0")]) Sample.vol1 PNone false false
    Sample.idle
  = (Raise (KeyError "conn"),
     logged Sample.idle
       [CallBaseDetachVolume PNone (PDict [("device", PStr "/dev/rbd0")])
          Sample.vol1 PNone false false]).
Proof.
  apply (detach_volume_record_without_conn
           (Cases.healthy (Ok (PBool true)) (Ok tt)) PNone
           [("device", PStr "/dev/rbd0")] Sample.vol1 PNone false false
           Sample.idle); reflexivity.
Defined.
